(** * Data Playground (app.py): the transform pipeline, the Analyzer and the
      Visualizer, over a model of the pandas operations the script calls.

    The script is a Streamlit page: widgets return the user's selections,
    pandas does the table work, plotly draws.  The embedding keeps that
    split:

    - [pd]  the pandas objects and methods app.py calls (column-major
            DataFrame with an index, typed Series, drop / dropna / fillna /
            boolean indexing / unique / isin / min / max / quantile / std);
    - [st]  the Streamlit widgets as functions of their options and of the
            user's interaction;
    - the upload and the four tabs of app.py, stage by stage, in an error
      monad: an exception that app.py does not catch aborts the script
      run.

    Numbers: a float64 cell is NaN or a rational.  NaN compares false with
    everything, as IEEE 754 says, and that is what the filters, the
    missing-value actions and the reductions that skip NaN depend on.
    Arithmetic on the rationals is exact: infinities, overflow and the
    rounding of sums and products are outside the model, and the
    statements below keep to what does not depend on them. *)

From Stdlib Require Import List String Ascii ZArith QArith Qabs Qround Qminmax.
From Stdlib Require Import Bool Lia Lqa DecimalString Sorted.
Import ListNotations.
Local Open Scope string_scope.

(* ------------------------------------------------------------------ *)
(** ** Python exceptions and the error monad *)

Inductive exn : Type :=
| KeyError (msg : string)
| TypeError (msg : string)
| ValueError (msg : string)
| NameError (msg : string)
| StreamlitAPIException (msg : string).

(** [str(e)], what an f-string prints for [{e}]. *)
Definition str_exn (e : exn) : string :=
  match e with
  | KeyError m | TypeError m | ValueError m | NameError m
  | StreamlitAPIException m => m
  end.

Inductive result (A : Type) : Type :=
| Ok (a : A)
| Raise (e : exn).
Arguments Ok {A} a.
Arguments Raise {A} e.

Definition bind {A B : Type} (c : result A) (k : A -> result B) : result B :=
  match c with
  | Ok a => k a
  | Raise e => Raise e
  end.

Notation "x <- c ;; k" := (bind c (fun x => k))
  (at level 61, c at next level, right associativity).

(** A Python [str | None], the value a selectbox hands back. *)
Definition py_eq (o : option string) (s : string) : bool :=
  match o with
  | Some t => String.eqb t s
  | None => false
  end.

(* ------------------------------------------------------------------ *)
(** ** Floats and boxed Python values *)

Inductive float : Type :=
| nan
| fin (q : Q).

Definition float_le (a b : float) : bool :=
  match a, b with
  | fin x, fin y => Qle_bool x y
  | _, _ => false
  end.

Definition float_ge (a b : float) : bool := float_le b a.


Definition float_of_Z (z : Z) : float := fin (inject_Z z).
Definition float_of_bool (b : bool) : float := fin (if b then 1 else 0)%Q.

Inductive pyobj : Type :=
| PInt (z : Z)
| PFloat (f : float)
| PBool (b : bool)
| PStr (s : string).

(** The number a Python object compares as, when it is one. *)
Definition pyobj_num (v : pyobj) : option Q :=
  match v with
  | PInt z => Some (inject_Z z)
  | PFloat (fin q) => Some q
  | PBool b => Some (if b then 1 else 0)%Q
  | PFloat nan | PStr _ => None
  end.

(** Equality as pandas' object hash table sees it: Python [==], except that
    NaN matches NaN. *)
Definition pyobj_eqb (v w : pyobj) : bool :=
  match v, w with
  | PFloat nan, PFloat nan => true
  | PStr s, PStr t => String.eqb s t
  | _, _ =>
      match pyobj_num v, pyobj_num w with
      | Some x, Some y => Qeq_bool x y
      | _, _ => false
      end
  end.

(* ------------------------------------------------------------------ *)
(** ** Generic list helpers *)

Fixpoint map2 {A B C : Type} (f : A -> B -> C) (l : list A) (r : list B)
  : list C :=
  match l, r with
  | a :: l', b :: r' => f a b :: map2 f l' r'
  | _, _ => []
  end.

(** Boolean indexing of an array: keep the positions whose mask is [true]. *)
Fixpoint take_mask {A : Type} (m : list bool) (l : list A) : list A :=
  match m, l with
  | b :: m', a :: l' => if b then a :: take_mask m' l' else take_mask m' l'
  | _, _ => []
  end.

Definition all_true (m : list bool) : bool := forallb (fun b => b) m.

(* ------------------------------------------------------------------ *)
(** ** pandas *)

Module pd.

(** A column: one array of one dtype.  [int64] and [bool_] cannot hold a
    missing value; [float64] holds NaN; [object_] holds any Python object
    and is where text lives.  These are the dtypes a CSV is read into;
    the datetime columns a spreadsheet can bring are outside the model. *)
Inductive Series : Type :=
| int64 (vs : list Z)
| float64 (vs : list float)
| bool_ (vs : list bool)
| object_ (vs : list pyobj).

(** A frame: the row index and the named columns, in order. *)
Record DataFrame : Type := mkDataFrame {
  index : list Z;
  data : list (string * Series)
}.

Definition columns (df : DataFrame) : list string := map fst (data df).
Definition shape0 (df : DataFrame) : nat := List.length (index df).
Definition shape1 (df : DataFrame) : nat := List.length (data df).

(** The cells of a column as Python objects. *)
Definition values (s : Series) : list pyobj :=
  match s with
  | int64 vs => map PInt vs
  | float64 vs => map PFloat vs
  | bool_ vs => map PBool vs
  | object_ vs => vs
  end.

Definition size (s : Series) : nat := List.length (values s).

(** Every column is as long as the index. *)
Definition well_formed (df : DataFrame) : Prop :=
  Forall (fun c => size (snd c) = shape0 df) (data df).

Definition well_formedb (df : DataFrame) : bool :=
  forallb (fun c => Nat.eqb (size (snd c)) (shape0 df)) (data df).

(** [pd.isna] on one cell. *)
Definition isna (v : pyobj) : bool :=
  match v with
  | PFloat nan => true
  | _ => false
  end.

Definition notna (v : pyobj) : bool := negb (isna v).

Definition Series_notna (s : Series) : list bool := map notna (values s).

Definition Series_mask (m : list bool) (s : Series) : Series :=
  match s with
  | int64 vs => int64 (take_mask m vs)
  | float64 vs => float64 (take_mask m vs)
  | bool_ vs => bool_ (take_mask m vs)
  | object_ vs => object_ (take_mask m vs)
  end.

(** [df[mask]]: the rows whose mask is True, index labels kept. *)
Definition getitem_mask (df : DataFrame) (m : list bool) : DataFrame :=
  {| index := take_mask m (index df);
     data := map (fun c => (fst c, Series_mask m (snd c))) (data df) |}.

Definition repr_labels (ls : list string) : string :=
  "[" ++ String.concat ", " (map (fun l => "'" ++ l ++ "'") ls) ++ "]".

Definition mem (l : string) (ls : list string) : bool :=
  existsb (String.eqb l) ls.

(** [df[name]]. *)
Fixpoint lookup (name : string) (cs : list (string * Series))
  : option Series :=
  match cs with
  | [] => None
  | (n, s) :: cs' => if String.eqb name n then Some s else lookup name cs'
  end.

Definition getitem (df : DataFrame) (name : option string) : result Series :=
  match name with
  | None => Raise (KeyError "None")
  | Some n =>
      match lookup n (data df) with
      | Some s => Ok s
      | None => Raise (KeyError ("'" ++ n ++ "'"))
      end
  end.

(** [df.drop(columns=labels)], with the default [errors='raise']: a label
    that is not a column is a KeyError. *)
Definition drop (df : DataFrame) (labels : list string) : result DataFrame :=
  match filter (fun l => negb (mem l (columns df))) labels with
  | [] =>
      Ok {| index := index df;
            data := filter (fun c => negb (mem (fst c) labels)) (data df) |}
  | missing => Raise (KeyError (repr_labels missing ++ " not found in axis"))
  end.

(** The row mask of [df.dropna()] (axis 0, how='any'): True where every
    column holds a value. *)
Definition notna_rows (df : DataFrame) : list bool :=
  fold_right (fun c m => map2 andb (Series_notna (snd c)) m)
             (repeat true (shape0 df)) (data df).

Definition dropna (df : DataFrame) : DataFrame :=
  getitem_mask df (notna_rows df).

(** [s.fillna(0)]: NaN becomes 0.0 in a float column and the integer 0 in
    an object column; the dtype stays. *)
Definition fill_float (f : float) : float :=
  match f with
  | nan => fin 0
  | fin q => fin q
  end.

Definition fill_obj (v : pyobj) : pyobj :=
  if isna v then PInt 0 else v.

Definition Series_fillna0 (s : Series) : Series :=
  match s with
  | int64 vs => int64 vs
  | float64 vs => float64 (map fill_float vs)
  | bool_ vs => bool_ vs
  | object_ vs => object_ (map fill_obj vs)
  end.

Definition fillna0 (df : DataFrame) : DataFrame :=
  {| index := index df;
     data := map (fun c => (fst c, Series_fillna0 (snd c))) (data df) |}.

(** [pd.api.types.is_numeric_dtype]: booleans count as numeric. *)
Definition is_numeric_dtype (s : Series) : bool :=
  match s with
  | int64 _ | float64 _ | bool_ _ => true
  | object_ _ => false
  end.

(** The cells of a numeric column as floats. *)
Definition nums (s : Series) : option (list float) :=
  match s with
  | int64 vs => Some (map float_of_Z vs)
  | float64 vs => Some vs
  | bool_ vs => Some (map float_of_bool vs)
  | object_ _ => None
  end.

(** Reductions skip NaN; with nothing left the answer is NaN. *)
Fixpoint nanmin (fs : list float) : float :=
  match fs with
  | [] => nan
  | nan :: r => nanmin r
  | fin x :: r =>
      match nanmin r with
      | nan => fin x
      | fin y => fin (Qmin x y)
      end
  end.

Fixpoint nanmax (fs : list float) : float :=
  match fs with
  | [] => nan
  | nan :: r => nanmax r
  | fin x :: r =>
      match nanmax r with
      | nan => fin x
      | fin y => fin (Qmax x y)
      end
  end.

Definition not_numeric : exn :=
  TypeError "unsupported operand for a column of dtype object".

(** [float(s.min())] and [float(s.max())] on a numeric column. *)
Definition Series_min (s : Series) : result float :=
  match nums s with
  | Some fs => Ok (nanmin fs)
  | None => Raise not_numeric
  end.

Definition Series_max (s : Series) : result float :=
  match nums s with
  | Some fs => Ok (nanmax fs)
  | None => Raise not_numeric
  end.

(** [s >= x] and [s <= x], element by element. *)
Definition Series_ge (s : Series) (x : float) : result (list bool) :=
  match nums s with
  | Some fs => Ok (map (fun f => float_ge f x) fs)
  | None => Raise not_numeric
  end.

Definition Series_le (s : Series) (x : float) : result (list bool) :=
  match nums s with
  | Some fs => Ok (map (fun f => float_le f x) fs)
  | None => Raise not_numeric
  end.

(** [a & b] on boolean arrays. *)
Definition and_ (a b : list bool) : list bool := map2 andb a b.

(** [s.unique()]: the distinct cells in order of first appearance. *)
Fixpoint unique_objs (vs : list pyobj) : list pyobj :=
  match vs with
  | [] => []
  | v :: r => v :: filter (fun w => negb (pyobj_eqb v w)) (unique_objs r)
  end.

Definition unique (s : Series) : list pyobj := unique_objs (values s).

(** [s.isin(selected)]. *)
Definition isin (s : Series) (selected : list pyobj) : list bool :=
  map (fun v => existsb (pyobj_eqb v) selected) (values s).

(** [df.select_dtypes(include=['float64', 'int64']).columns.tolist()]. *)
Definition is_float64_or_int64 (s : Series) : bool :=
  match s with
  | int64 _ | float64 _ => true
  | bool_ _ | object_ _ => false
  end.

Definition select_dtypes_float64_int64 (df : DataFrame) : list string :=
  map fst (filter (fun c => is_float64_or_int64 (snd c)) (data df)).

(** *** Descriptive statistics on a float64 / int64 column *)

Fixpoint finite (fs : list float) : list Q :=
  match fs with
  | [] => []
  | nan :: r => finite r
  | fin q :: r => q :: finite r
  end.

(** The observations of a column the Analyzer may select: NaN dropped. *)
Definition observations (s : Series) : result (list Q) :=
  match s with
  | int64 vs => Ok (map inject_Z vs)
  | float64 vs => Ok (finite vs)
  | bool_ _ | object_ _ => Raise not_numeric
  end.

Fixpoint insert (x : Q) (l : list Q) : list Q :=
  match l with
  | [] => [x]
  | y :: r => if Qle_bool x y then x :: l else y :: insert x r
  end.

Definition sort (l : list Q) : list Q := fold_right insert [] l.

Definition Qsum (l : list Q) : Q := fold_right Qplus 0%Q l.

Definition Qlen (l : list Q) : Q := inject_Z (Z.of_nat (List.length l)).

Definition mean_obs (xs : list Q) : float :=
  match xs with
  | [] => nan
  | _ => fin (Qsum xs / Qlen xs)
  end.

Definition median_obs (xs : list Q) : float :=
  match xs with
  | [] => nan
  | x0 :: _ =>
      let s := sort xs in
      let n := List.length s in
      if Nat.even n
      then fin ((nth (n / 2 - 1) s x0 + nth (n / 2) s x0) / 2)
      else fin (nth (n / 2) s x0)
  end.

(** The sample variance (ddof = 1): undefined below two observations. *)
Definition var_obs (xs : list Q) : float :=
  match xs with
  | [] | [_] => nan
  | _ =>
      let m := (Qsum xs / Qlen xs)%Q in
      fin (Qsum (map (fun x => (x - m) * (x - m))%Q xs) / (Qlen xs - 1))
  end.

(** Linear interpolation between the two order statistics around the
    virtual index [q * (n - 1)]. *)
Definition lerp (a b t : Q) : Q := (a + (b - a) * t)%Q.

Definition quantile_sorted (xs : list Q) (q : Q) : float :=
  match xs with
  | [] => nan
  | x0 :: _ =>
      let h := (q * (Qlen xs - 1))%Q in
      let i := Z.to_nat (Qfloor h) in
      let g := (h - inject_Z (Qfloor h))%Q in
      fin (lerp (nth i xs x0)
                (nth (Nat.min (S i) (List.length xs - 1)) xs x0) g)
  end.

Definition mean (s : Series) : result float :=
  xs <- observations s ;; Ok (mean_obs xs).

Definition median (s : Series) : result float :=
  xs <- observations s ;; Ok (median_obs xs).

(** [s.std()] is the square root of the variance; the root is kept under
    its radicand. *)
Inductive root : Type :=
| root_nan
| sqrt (radicand : Q).

Definition std (s : Series) : result root :=
  xs <- observations s ;;
  Ok match var_obs xs with
     | nan => root_nan
     | fin v => sqrt v
     end.

Definition quantile (s : Series) (q : Q) : result float :=
  if Qle_bool 0 q && Qle_bool q 1
  then xs <- observations s ;; Ok (quantile_sorted (sort xs) q)
  else Raise (ValueError "percentiles should all be in the interval [0, 1]").

End pd.

Import pd.

(* ------------------------------------------------------------------ *)
(** ** Streamlit widgets *)

(** What the page shows, besides charts. *)
Inductive element : Type :=
| success (body : string)
| info (body : string)
| warning (body : string)
| error (body : string)
| write (body : string)
| metric (label value : string)
| dataframe (df : DataFrame).

Module st.

(** A selectbox or radio hands back the option at the chosen position: the
    one at [index] until the user picks another.  With no option to offer
    it hands back Python's [None]. *)
Definition selectbox (options : list string) (index : nat)
  (choice : option nat) : option string :=
  nth_error options match choice with
                    | Some i => i
                    | None => index
                    end.

Definition radio (options : list string) (choice : option nat)
  : option string :=
  selectbox options 0 choice.

(** A multiselect hands back the options picked, and only options it
    offered: [default] until the user touches it. *)
Definition multiselect {A : Type} (options default : list A)
  (choice : option (list nat)) : list A :=
  match choice with
  | None => default
  | Some picked =>
      flat_map (fun i => match nth_error options i with
                         | Some a => [a]
                         | None => []
                         end) picked
  end.

(** Two handles on the track, in order. *)
Definition on_track (min_value max_value : float) (r : float * float)
  : bool :=
  float_le min_value (fst r) && float_le (fst r) (snd r) &&
  float_le (snd r) max_value.

(** A range slider refuses a track without length: with [min_value] at or
    above [max_value] it raises.  Otherwise it hands back [value] until the
    user moves it.  What the user can do is put the two handles on the
    track; a pair that is not on the track is no interaction of the widget,
    and the model refuses it. *)
Definition slider (min_value max_value : float) (value : float * float)
  (choice : option (float * float)) : result (float * float) :=
  if float_ge min_value max_value
  then Raise (StreamlitAPIException
                "Slider `min_value` must be less than the `max_value`.")
  else
    match choice with
    | None => Ok value
    | Some r =>
        if on_track min_value max_value r
        then Ok r
        else Raise (StreamlitAPIException
                      "The slider value is outside `min_value` and `max_value`.")
    end.

Definition slider1 (min_value max_value value : Z) (choice : option Z) : Z :=
  match choice with
  | None => value
  | Some p => p
  end.

End st.

(* ------------------------------------------------------------------ *)
(** ** Python formatting *)

Definition digits (n : Z) : string :=
  NilZero.string_of_uint (N.to_uint (Z.to_N n)).

(** [str(n)] for an integer. *)
Definition str_int (n : Z) : string :=
  if (n <? 0)%Z then "-" ++ digits (- n) else digits n.

(** [k] hundredths as fixed-point text. *)
Definition fixed2 (neg : bool) (k : Z) : string :=
  (if neg then "-" else "") ++ digits (k / 100) ++ "." ++
  (if (k mod 100 <? 10)%Z then "0" else "") ++ digits (k mod 100).

Definition round_half_even (q : Q) : Z :=
  let f := Qfloor q in
  match Qcompare (q - inject_Z f) (1 # 2) with
  | Lt => f
  | Gt => (f + 1)%Z
  | Eq => if Z.even f then f else (f + 1)%Z
  end.

(** The binade of [a > 0]: the [e] with [2^52 <= a / 2^e < 2^53], not
    below the exponent of the subnormal numbers. *)
Definition binade (a : Q) : Z :=
  let k := (Z.log2 (Qnum a) - Z.log2 (Zpos (Qden a)))%Z in
  let l := if Qle_bool (2 ^ k) a then k else (k - 1)%Z in
  Z.max (l - 52) (-1074).

(** The binary64 number nearest to [q], ties to even: what a Python float
    holding [q] really is.  Numbers beyond the largest double are outside
    the model. *)
Definition nearest_double (q : Q) : Q :=
  if Qeq_bool q 0 then 0%Q
  else
    let e := binade (Qabs q) in
    let m := round_half_even (Qabs q / 2 ^ e) in
    let d := (inject_Z m * 2 ^ e)%Q in
    if Qle_bool 0 q then d else (- d)%Q.

(** [f"{x:.2f}"]: the decimal nearest to the double, ties to even. *)
Definition format_2f (x : float) : string :=
  match x with
  | nan => "nan"
  | fin q =>
      fixed2 (negb (Qle_bool 0 q))
             (round_half_even (Qabs (nearest_double q) * 100))
  end.

(** The nearest integer to the square root of [w >= 0]. *)
Definition round_sqrt (w : Q) : Z :=
  let k := Z.sqrt (Qfloor w) in
  match Qcompare (w * 4) (inject_Z ((2 * k + 1) * (2 * k + 1))) with
  | Lt => k
  | Gt => (k + 1)%Z
  | Eq => if Z.even k then k else (k + 1)%Z
  end.

(** The binary64 number nearest to the square root of [v >= 0]. *)
Definition double_sqrt (v : Q) : Q :=
  if Qle_bool v 0 then 0%Q
  else
    let k := (Z.log2 (Qnum v) - Z.log2 (Zpos (Qden v)))%Z in
    let l := if Qle_bool (2 ^ k) v then k else (k - 1)%Z in
    let e := (l / 2 - 52)%Z in
    (inject_Z (round_sqrt (v / 2 ^ (2 * e))) * 2 ^ e)%Q.

(** [f"{x:.2f}"] for a standard deviation. *)
Definition format_2f_root (x : root) : string :=
  match x with
  | root_nan => "nan"
  | sqrt v => format_2f (fin (double_sqrt v))
  end.

Definition py_str (o : option string) : string :=
  match o with
  | Some s => s
  | None => "None"
  end.

(* ------------------------------------------------------------------ *)
(** ** TAB 2: Data Cleaning & Filtering *)

(** The user's hand on the cleaning tab. *)
Record cleaning : Type := mkCleaning {
  drop_choice : option (list nat);
  missing_choice : option nat;
  filter_choice : option nat;
  range_choice : option (float * float);
  values_choice : option (list nat)
}.

(** 1. Drop Columns (lines 70-71). *)
Definition drop_columns (df_clean : DataFrame) (columns_to_drop : list string)
  : result DataFrame :=
  match columns_to_drop with
  | [] => Ok df_clean
  | _ => drop df_clean columns_to_drop
  end.

(** 2. Handle Missing Values (lines 79-84). *)
Definition handle_missing (df_clean : DataFrame)
  (missing_action : option string) : DataFrame :=
  if py_eq missing_action "Drop Rows with Missing Values"
  then dropna df_clean
  else if py_eq missing_action "Fill with 0"
       then fillna0 df_clean
       else df_clean.

(** 3. Filter Data (lines 90-100). *)
Definition filter_data (df_clean : DataFrame) (filter_col : option string)
  (range_choice : option (float * float))
  (values_choice : option (list nat)) : result DataFrame :=
  if negb (py_eq filter_col "None")
  then
    s <- getitem df_clean filter_col ;;
    if is_numeric_dtype s
    then
      min_val <- Series_min s ;;
      max_val <- Series_max s ;;
      rng <- st.slider min_val max_val (min_val, max_val) range_choice ;;
      ge <- Series_ge s (fst rng) ;;
      le <- Series_le s (snd rng) ;;
      Ok (getitem_mask df_clean (and_ ge le))
    else
      let unique_vals := unique s in
      let selected_vals :=
        st.multiselect unique_vals unique_vals values_choice in
      Ok (getitem_mask df_clean (isin s selected_vals))
  else Ok df_clean.

Definition missing_options : list string :=
  ["None"; "Drop Rows with Missing Values"; "Fill with 0"].

Definition missing_notice (missing_action : option string) : list element :=
  if py_eq missing_action "Drop Rows with Missing Values"
  then [info "Rows with missing values dropped."]
  else if py_eq missing_action "Fill with 0"
       then [info "Missing values filled with 0."]
       else [].

Definition filter_options (df_clean : DataFrame) : list string :=
  "None" :: columns df_clean.

(** The whole tab: the derived table and what the tab shows. *)
Definition tab2 (df : DataFrame) (ui : cleaning)
  : result (DataFrame * list element) :=
  let df_clean := df in
  let columns_to_drop :=
    st.multiselect (columns df_clean) [] (drop_choice ui) in
  df_clean <- drop_columns df_clean columns_to_drop ;;
  let dropped :=
    match columns_to_drop with
    | [] => []
    | _ => [success ("Dropped: " ++ String.concat ", " columns_to_drop)]
    end in
  let missing_action := st.radio missing_options (missing_choice ui) in
  let df_clean := handle_missing df_clean missing_action in
  let filter_col :=
    st.selectbox (filter_options df_clean) 0 (filter_choice ui) in
  df_clean <- filter_data df_clean filter_col
                          (range_choice ui) (values_choice ui) ;;
  Ok (df_clean,
      (dropped ++ missing_notice missing_action ++ [dataframe df_clean])%list).

(* ------------------------------------------------------------------ *)
(** ** TAB 3: Statistics *)

(** [percentile / 100]. *)
Definition fraction (percentile : Z) : Q := (inject_Z percentile / 100)%Q.

(** The value shown under "Std Dev" (line 122). *)
Definition std_metric (s : Series) : result string :=
  sd <- std s ;; Ok (format_2f_root sd).

(** [p_value] (line 126). *)
Definition p_value (s : Series) (percentile : Z) : result float :=
  quantile s (fraction percentile).

Definition tab3 (df_clean : DataFrame) (column_choice : option nat)
  (percentile_choice : option Z) : result (list element) :=
  let numeric_cols := select_dtypes_float64_int64 df_clean in
  match numeric_cols with
  | [] => Ok [warning "No numeric columns found in the dataset."]
  | _ =>
      let selected_col_stat := st.selectbox numeric_cols 0 column_choice in
      s <- getitem df_clean selected_col_stat ;;
      m <- mean s ;;
      md <- median s ;;
      sd <- std_metric s ;;
      let percentile := st.slider1 0 100 50 percentile_choice in
      p <- p_value s percentile ;;
      Ok [metric "Mean" (format_2f m);
          metric "Median" (format_2f md);
          metric "Std Dev" sd;
          write ("The **" ++ str_int percentile ++ "th percentile** of **" ++
                 py_str selected_col_stat ++ "** is: **" ++ format_2f p ++
                 "**")]
  end.

(* ------------------------------------------------------------------ *)
(** ** TAB 4: Visualization *)

(** plotly.express, as far as app.py calls it: each constructor takes the
    frame, the axes, the colour column and the title, and returns a figure
    or raises. *)
Record plotly_express (Figure : Type) : Type := mkPx {
  px_scatter : DataFrame -> option string -> option string ->
               option string -> string -> result Figure;
  px_line : DataFrame -> option string -> option string ->
            option string -> string -> result Figure;
  px_bar : DataFrame -> option string -> option string ->
           option string -> string -> result Figure;
  px_histogram : DataFrame -> option string ->
                 option string -> string -> result Figure;
  px_box : DataFrame -> option string -> option string ->
           option string -> string -> result Figure
}.
Arguments px_scatter {Figure}.
Arguments px_line {Figure}.
Arguments px_bar {Figure}.
Arguments px_histogram {Figure}.
Arguments px_box {Figure}.

(** What the chart tab shows. *)
Inductive rendered (Figure : Type) : Type :=
| plotly_chart (fig : Figure)
| notice (e : element).
Arguments plotly_chart {Figure} fig.
Arguments notice {Figure} e.

(** [try: body except Exception as e: handler(e)]. *)
Definition try_except {A : Type} (body : result A) (handler : exn -> result A)
  : result A :=
  match body with
  | Ok a => Ok a
  | Raise e => handler e
  end.

Definition chart_options : list string :=
  ["Scatter Plot"; "Line Chart"; "Bar Chart"; "Histogram"; "Box Plot"].

(** The user's hand on the chart tab. *)
Record charting : Type := mkCharting {
  chart_choice : option nat;
  x_choice : option nat;
  y_choice : option nat;
  color_choice : option nat
}.

Section Visualizer.

Variable Figure : Type.
Variable px : plotly_express Figure.
(** [st.plotly_chart], which may itself refuse a figure. *)
Variable st_plotly_chart : Figure -> result unit.

(** Lines 150-153. *)
Definition color_of (color_encode : option string) : option string :=
  if py_eq color_encode "None" then None else color_encode.

(** Lines 156-165; with no branch taken [fig] stays unbound. *)
Definition make_fig (df_clean : DataFrame) (chart_type : option string)
  (x_axis y_axis color : option string) : result Figure :=
  if py_eq chart_type "Scatter Plot"
  then px_scatter px df_clean x_axis y_axis color
         (py_str y_axis ++ " vs " ++ py_str x_axis)
  else if py_eq chart_type "Line Chart"
  then px_line px df_clean x_axis y_axis color
         (py_str y_axis ++ " over " ++ py_str x_axis)
  else if py_eq chart_type "Bar Chart"
  then px_bar px df_clean x_axis y_axis color
         (py_str y_axis ++ " by " ++ py_str x_axis)
  else if py_eq chart_type "Histogram"
  then px_histogram px df_clean x_axis color
         ("Distribution of " ++ py_str x_axis)
  else if py_eq chart_type "Box Plot"
  then px_box px df_clean x_axis y_axis color
         ("Box Plot of " ++ py_str y_axis ++ " by " ++ py_str x_axis)
  else Raise (NameError "name 'fig' is not defined").

Definition chart_error (e : exn) : string :=
  "Could not create chart: " ++ str_exn e ++
  ". Please ensure you selected appropriate columns (e.g., Numeric vs Categorical).".

(** The body of the [try] (lines 156-167). *)
Definition draw (df_clean : DataFrame) (chart_type : option string)
  (x_axis y_axis color : option string) : result (list (rendered Figure)) :=
  fig <- make_fig df_clean chart_type x_axis y_axis color ;;
  _ <- st_plotly_chart fig ;;
  Ok [plotly_chart fig].

(** Lines 155-170. *)
Definition plot (df_clean : DataFrame) (chart_type : option string)
  (x_axis y_axis color : option string) : result (list (rendered Figure)) :=
  try_except
    (draw df_clean chart_type x_axis y_axis color)
    (fun e => Ok [notice (error (chart_error e))]).

Definition tab4 (df_clean : DataFrame) (ui : charting)
  : result (list (rendered Figure)) :=
  let chart_type := st.selectbox chart_options 0 (chart_choice ui) in
  let all_cols := columns df_clean in
  let x_axis := st.selectbox all_cols 0 (x_choice ui) in
  let y_axis :=
    st.selectbox all_cols
      (if Nat.ltb 1 (List.length all_cols) then 1 else 0) (y_choice ui) in
  let color_encode :=
    st.selectbox ("None" :: all_cols) 0 (color_choice ui) in
  plot df_clean chart_type x_axis y_axis (color_of color_encode).

End Visualizer.


(* ------------------------------------------------------------------ *)
(** ** Predicates the statements use *)

(** No missing value in any cell of any column. *)
Definition no_missing (df : DataFrame) : Prop :=
  Forall (fun c => Forall (fun v => isna v = false) (values (snd c)))
         (data df).

(** The numeric zero: [0] or [0.0]. *)
Definition is_zero (v : pyobj) : Prop :=
  v = PInt 0 \/ v = PFloat (fin 0).

(** [new] is [old] with its missing cells set to zero. *)
Definition filled (old new : pyobj) : Prop :=
  if isna old then is_zero new else new = old.


(** The mask of a range filter with bounds [lo] and [hi]. *)
Definition in_range (lo hi : float) (f : float) : bool :=
  float_le lo f && float_le f hi.


(** [m] selects no position that [n] rejects, where both have one. *)
Fixpoint within (m n : list bool) : Prop :=
  match m, n with
  | b :: m', c :: n' => (b = true -> c = true) /\ within m' n'
  | _, _ => True
  end.

(* ------------------------------------------------------------------ *)
(** ** Sample tables *)

Definition people : DataFrame :=
  {| index := [0; 1; 2]%Z;
     data := [("age", float64 [fin 25; nan; fin 40]);
              ("city", object_ [PStr "A"; PStr "B"; PStr "A"])] |}.

(** A table with a column that is literally called None. *)
Definition shadowed : DataFrame :=
  {| index := [0; 1]%Z;
     data := [("id", int64 [1; 2]%Z);
              ("None", object_ [PStr "x"; PStr "y"])] |}.

Definition scores : DataFrame :=
  {| index := [0; 1; 2]%Z;
     data := [("name", object_ [PStr "ann"; PStr "bob"; PStr "cy"]);
              ("score", int64 [3; 1; 2]%Z)] |}.

Definition readings : DataFrame :=
  {| index := [0; 1; 2; 3; 4; 5; 6]%Z;
     data := [("site", object_ [PStr "n"; PStr "s"; PStr "n"; PStr "e";
                                PStr "w"; PStr "s"; PStr "n"]);
              ("level", float64 [fin 3; nan; fin (1 # 2); fin 8; fin 2;
                                 fin 5; nan])] |}.

Definition lonely : DataFrame :=
  {| index := [0]%Z; data := [("score", int64 [7]%Z)] |}.

(* ------------------------------------------------------------------ *)
(** ** The upload and the overview tab *)

(** What the file uploader hands over. *)
Record UploadedFile : Type := mkUploadedFile {
  name : string;
  content : string
}.

(** [s.endswith(suffix)]. *)
Definition endswith (s suffix : string) : bool :=
  let n := String.length s in
  let k := String.length suffix in
  (k <=? n)%nat && String.eqb (substring (n - k) k s) suffix.

Definition Series_head (n : nat) (s : Series) : Series :=
  match s with
  | int64 vs => int64 (firstn n vs)
  | float64 vs => float64 (firstn n vs)
  | bool_ vs => bool_ (firstn n vs)
  | object_ vs => object_ (firstn n vs)
  end.

(** [df.head()]: the first five rows. *)
Definition head (df : DataFrame) : DataFrame :=
  {| index := firstn 5 (index df);
     data := map (fun c => (fst c, Series_head 5 (snd c))) (data df) |}.

(** [str(s.dtype)], for the four dtypes of the model, as pandas 2 names
    them (pandas 3 reads a text column as dtype str). *)
Definition dtype_name (s : Series) : string :=
  match s with
  | int64 _ => "int64"
  | float64 _ => "float64"
  | bool_ _ => "bool"
  | object_ _ => "object"
  end.

(** [d[k] = v] on a Python dict kept in insertion order. *)
Fixpoint dict_set (k v : string) (d : list (string * string))
  : list (string * string) :=
  match d with
  | [] => [(k, v)]
  | (k', v') :: d' =>
      if String.eqb k k' then (k, v) :: d' else (k', v') :: dict_set k v d'
  end.

(** [df.dtypes.astype(str).to_dict()]. *)
Definition dtypes_dict (df : DataFrame) : list (string * string) :=
  fold_left (fun d c => dict_set (fst c) (dtype_name (snd c)) d) (data df) [].

(** One thing on the page. *)
Inductive item (Figure : Type) : Type :=
| shown (r : rendered Figure)
| json (d : list (string * string)).
Arguments shown {Figure} r.
Arguments json {Figure} d.

(** The user's hand on the whole page. *)
Record session : Type := mkSession {
  on_cleaning : cleaning;
  column_choice : option nat;
  percentile_choice : option Z;
  on_charting : charting
}.

(** A selectbox choice that is one of the options on offer. *)
Definition offered {A : Type} (options : list A) (choice : option nat)
  : Prop :=
  match choice with
  | None => True
  | Some i => (i < List.length options)%nat
  end.

Section Page.

Variable Figure : Type.
Variable px : plotly_express Figure.
Variable st_plotly_chart : Figure -> result unit.
(** [pd.read_csv], [pd.read_excel] and [df.describe()]. *)
Variable read_csv : UploadedFile -> result DataFrame.
Variable read_excel : UploadedFile -> result DataFrame.
Variable describe : DataFrame -> result DataFrame.

(** Lines 21-29; the cache keeps results, it does not change them. *)
Definition load_data (file : UploadedFile)
  : result (option DataFrame * list element) :=
  try_except
    (df <- (if endswith (name file) ".csv"
            then read_csv file
            else read_excel file) ;;
     Ok (Some df, []))
    (fun e => Ok (None, [error ("Error loading file: " ++ str_exn e)])).

(** TAB 1 (lines 41-55). *)
Definition tab1 (df : DataFrame) : result (list (item Figure)) :=
  summary <- describe df ;;
  Ok [shown (notice (write ("**Rows:** " ++ str_int (Z.of_nat (shape0 df)) ++
                            " | **Columns:** " ++
                            str_int (Z.of_nat (shape1 df)))));
      shown (notice (dataframe (head df)));
      json (dtypes_dict df);
      shown (notice (dataframe summary))].

Definition notices (es : list element) : list (item Figure) :=
  map (fun e => shown (notice e)) es.

(** Main App Logic (lines 32-173). *)
Definition main (uploaded_file : option UploadedFile) (ui : session)
  : result (list (item Figure)) :=
  match uploaded_file with
  | Some file =>
      loaded <- load_data file ;;
      match fst loaded with
      | Some df =>
          t1 <- tab1 df ;;
          cleaned <- tab2 df (on_cleaning ui) ;;
          let df_clean := fst cleaned in
          t3 <- tab3 df_clean (column_choice ui) (percentile_choice ui) ;;
          t4 <- tab4 Figure px st_plotly_chart df_clean (on_charting ui) ;;
          Ok (notices (snd loaded) ++ t1 ++ notices (snd cleaned) ++
              notices t3 ++ map shown t4)%list
      | None => Ok (notices (snd loaded))
      end
  | None => Ok (notices [info "Please upload a file from the sidebar to begin."])
  end.

End Page.

(** Row [i] has no missing cell. *)
Definition complete_row (df : DataFrame) (i : nat) : Prop :=
  forall c v, In c (data df) -> nth_error (values (snd c)) i = Some v ->
              isna v = false.

(** A charting library that draws whatever it is asked, a box plot of a
    text column against a numeric one included. *)
Definition easy_px : plotly_express string :=
  let ok kind := fun (_ : DataFrame) (_ _ _ : option string) (title : string)
                 => Ok (kind ++ ": " ++ title) in
  {| px_scatter := ok "scatter";
     px_line := ok "line";
     px_bar := ok "bar";
     px_histogram := fun _ _ _ title => Ok ("histogram: " ++ title);
     px_box := ok "box" |}.

(** A decoder that knows one file. *)
Definition one_file (file : UploadedFile) : result DataFrame :=
  if String.eqb (content file) "age,city"
  then Ok people
  else Raise (ValueError "No columns to parse from file").

Definition count_only (df : DataFrame) : result DataFrame :=
  Ok {| index := [0]%Z;
        data := map (fun c => (fst c, int64 [Z.of_nat (size (snd c))]))
                    (data df) |}.

(** A charting library that draws every chart it is asked for. *)
Definition draws {Figure : Type} (px : plotly_express Figure) : Prop :=
  (forall df x y c t, exists fig, px_scatter px df x y c t = Ok fig) /\
  (forall df x y c t, exists fig, px_line px df x y c t = Ok fig) /\
  (forall df x y c t, exists fig, px_bar px df x y c t = Ok fig) /\
  (forall df x c t, exists fig, px_histogram px df x c t = Ok fig) /\
  (forall df x y c t, exists fig, px_box px df x y c t = Ok fig).

(* ------------------------------------------------------------------ *)
(** ** Lists and masks *)

Lemma mem_In (l : string) (ls : list string) : mem l ls = true <-> In l ls.
Proof.
  unfold mem. rewrite existsb_exists. split.
  - intros [x [Hin Heq]]. apply String.eqb_eq in Heq. now subst.
  - intros Hin. exists l. split; [assumption | apply String.eqb_refl].
Qed.

Lemma mem_false (l : string) (ls : list string) :
  mem l ls = false <-> ~ In l ls.
Proof.
  rewrite <- mem_In. destruct (mem l ls); split; congruence.
Qed.

Lemma filter_nil_iff {A : Type} (f : A -> bool) (l : list A) :
  filter f l = [] <-> forall x, In x l -> f x = false.
Proof.
  induction l as [|a l IH]; simpl.
  - split; [intros _ x [] | reflexivity].
  - destruct (f a) eqn:Ha.
    + split; [discriminate |].
      intros H. specialize (H a (or_introl eq_refl)). congruence.
    + rewrite IH. split.
      * intros H x [<- | Hin]; auto.
      * intros H x Hin. apply H. now right.
Qed.

Lemma length_take_mask {A : Type} (m : list bool) (l : list A) :
  (List.length (take_mask m l) <= List.length l)%nat.
Proof.
  revert l. induction m as [|b m IH]; intros [|a l]; simpl; try lia.
  specialize (IH l). destruct b; simpl; lia.
Qed.

Lemma take_mask_map {A B : Type} (f : A -> B) (m : list bool) (l : list A) :
  take_mask m (map f l) = map f (take_mask m l).
Proof.
  revert l. induction m as [|b m IH]; intros [|a l]; simpl; try reflexivity.
  rewrite IH. now destruct b.
Qed.

Lemma values_Series_mask (m : list bool) (s : Series) :
  values (Series_mask m s) = take_mask m (values s).
Proof.
  destruct s; simpl; now rewrite ?take_mask_map.
Qed.

Lemma columns_getitem_mask (df : DataFrame) (m : list bool) :
  columns (getitem_mask df m) = columns df.
Proof.
  unfold columns, getitem_mask. simpl. rewrite map_map. reflexivity.
Qed.

(* ------------------------------------------------------------------ *)
(** ** Drop Columns *)

Lemma drop_present (df : DataFrame) (labels : list string) :
  incl labels (columns df) ->
  drop df labels =
  Ok {| index := index df;
        data := filter (fun c => negb (mem (fst c) labels)) (data df) |}.
Proof.
  intros Hincl. unfold drop.
  replace (filter (fun l => negb (mem l (columns df))) labels) with (@nil string).
  - reflexivity.
  - symmetry. apply filter_nil_iff. intros x Hx.
    apply Hincl, mem_In in Hx. now rewrite Hx.
Qed.

Lemma drop_absent (df : DataFrame) (labels : list string) (name : string) :
  In name labels -> ~ In name (columns df) ->
  exists msg, drop df labels = Raise (KeyError msg).
Proof.
  intros Hin Hout. unfold drop.
  destruct (filter (fun l => negb (mem l (columns df))) labels) eqn:E.
  - rewrite filter_nil_iff in E. specialize (E name Hin).
    apply mem_false in Hout. rewrite Hout in E. discriminate.
  - eexists. reflexivity.
Qed.

Lemma multiselect_offered {A : Type} (options default : list A)
  (choice : option (list nat)) :
  incl default options -> incl (st.multiselect options default choice) options.
Proof.
  intros Hd. destruct choice as [picked|]; simpl; [|assumption].
  intros a Ha. apply in_flat_map in Ha. destruct Ha as [i [_ Hi]].
  destruct (nth_error options i) eqn:E; simpl in Hi; [|contradiction].
  destruct Hi as [<- | []]. eapply nth_error_In. eassumption.
Qed.

Lemma columns_filter (labels : list string) (cs : list (string * Series)) :
  map fst (filter (fun c => negb (mem (fst c) labels)) cs) =
  filter (fun c => negb (mem c labels)) (map fst cs).
Proof.
  induction cs as [|c cs IH]; simpl; [reflexivity|].
  destruct (negb (mem (fst c) labels)); simpl; now rewrite IH.
Qed.

Lemma drop_columns_present (df : DataFrame) (C : list string) :
  incl C (columns df) ->
  exists df',
    drop_columns df C = Ok df' /\
    columns df' = filter (fun c => negb (mem c C)) (columns df) /\
    shape0 df' = shape0 df.
Proof.
  intros Hincl. unfold drop_columns. destruct C as [|c0 C'].
  - exists df. split; [reflexivity|]. split; [|reflexivity].
    simpl. clear Hincl. induction (columns df); simpl; congruence.
  - rewrite drop_present by assumption. eexists. split; [reflexivity|].
    split; [apply columns_filter | reflexivity].
Qed.

(** C1.  Dropping a set [C] of columns of the table leaves exactly the
    columns that are not in [C], in their order, and every row. *)
Theorem drop_columns_subset (df : DataFrame) (C : list string) :
  incl C (columns df) ->
  exists df',
    drop_columns df C = Ok df' /\
    columns df' = filter (fun c => negb (mem c C)) (columns df) /\
    (forall c, In c (columns df') <-> In c (columns df) /\ ~ In c C) /\
    shape0 df' = shape0 df.
Proof.
  intros Hincl.
  destruct (drop_columns_present df C Hincl) as [df' [H1 [H2 H3]]].
  exists df'. split; [assumption|]. split; [assumption|].
  split; [|assumption].
  intros c. rewrite H2, filter_In, negb_true_iff, mem_false. reflexivity.
Qed.

Lemma drop_columns_subset_witness :
  exists df',
    drop_columns people ["city"] = Ok df' /\
    columns df' = filter (fun c => negb (mem c ["city"])) (columns people) /\
    (forall c, In c (columns df') <->
               In c (columns people) /\ ~ In c ["city"]) /\
    shape0 df' = shape0 people.
Proof.
  apply (drop_columns_subset people ["city"]).
  intros c [<- | []]. simpl. right. left. reflexivity.
Defined.

(** C6, as the claim has it: a name that is not a column is not skipped,
    the drop raises. *)
Lemma drop_columns_unknown_name_raises :
  drop_columns people ["city"; "zip"] =
    Raise (KeyError "['zip'] not found in axis") /\
  drop_columns people ["city"; "zip"] <> drop_columns people ["city"].
Proof.
  split; [reflexivity | discriminate].
Qed.

(** C6, amended.  Whatever the user does with the multiselect, the names
    it hands over are columns of the table and the stage returns a table;
    a name that is not a column makes the drop raise a KeyError. *)
Theorem drop_columns_offered_names (df : DataFrame) :
  (forall choice, exists df',
      drop_columns df (st.multiselect (columns df) [] choice) = Ok df') /\
  (forall C name, In name C -> ~ In name (columns df) ->
                  exists msg, drop_columns df C = Raise (KeyError msg)).
Proof.
  split.
  - intros choice.
    destruct (drop_columns_present df (st.multiselect (columns df) [] choice))
      as [df' [H _]].
    + apply multiselect_offered. intros x [].
    + now exists df'.
  - intros C name Hin Hout. unfold drop_columns.
    destruct C as [|c C']; [destruct Hin|].
    eapply drop_absent; eassumption.
Qed.

Lemma drop_columns_offered_names_witness :
  (exists df',
      drop_columns people
        (st.multiselect (columns people) [] (Some [1; 0; 7]%nat)) = Ok df') /\
  (exists msg, drop_columns people ["zip"] = Raise (KeyError msg)).
Proof.
  split.
  - apply (proj1 (drop_columns_offered_names people)).
  - apply (proj2 (drop_columns_offered_names people) ["zip"] "zip").
    + left. reflexivity.
    + simpl. intros [H | [H | []]]; discriminate.
Defined.

(* ------------------------------------------------------------------ *)
(** ** Handle Missing Values *)

Lemma within_and_l (a m : list bool) : within (map2 andb a m) a.
Proof.
  revert m. induction a as [|x a IH]; intros [|y m]; simpl; auto.
  split; [|apply IH]. intros H. now apply andb_true_iff in H.
Qed.

Lemma within_and_r (a m n : list bool) :
  within m n -> within (map2 andb a m) n.
Proof.
  revert m n. induction a as [|x a IH]; intros [|y m] [|z n]; simpl; auto.
  intros [H1 H2]. split; [|now apply IH].
  intros H. apply andb_true_iff in H. tauto.
Qed.

Lemma take_mask_within {A : Type} (P : A -> bool) (m : list bool)
  (l : list A) :
  within m (map P l) -> Forall (fun a => P a = true) (take_mask m l).
Proof.
  revert l. induction m as [|b m IH]; intros [|a l]; simpl; auto.
  intros [H1 H2]. destruct b; auto.
Qed.

Lemma notna_rows_within (init : list bool) (cs : list (string * Series))
  (c : string * Series) :
  In c cs ->
  within (fold_right (fun c m => map2 andb (Series_notna (snd c)) m) init cs)
         (Series_notna (snd c)).
Proof.
  induction cs as [|c0 cs IH]; simpl; [intros []|].
  intros [-> | Hin].
  - apply within_and_l.
  - apply within_and_r. now apply IH.
Qed.

Lemma dropna_no_missing (df : DataFrame) : no_missing (dropna df).
Proof.
  unfold no_missing, dropna, getitem_mask. simpl data.
  rewrite Forall_map. apply Forall_forall. intros c Hc. simpl.
  rewrite values_Series_mask.
  assert (H := notna_rows_within (repeat true (shape0 df)) (data df) c Hc).
  apply take_mask_within in H. fold (notna_rows df) in H.
  eapply Forall_impl; [|exact H].
  intros v Hv. unfold notna in Hv. now apply negb_true_iff in Hv.
Qed.

(** C2.  Under "Drop Rows with Missing Values" no cell of the result is
    missing and the result has at most as many rows as the input. *)
Theorem drop_rows_policy (df : DataFrame) :
  let df' := handle_missing df (st.radio missing_options (Some 1%nat)) in
  no_missing df' /\ (shape0 df' <= shape0 df)%nat.
Proof.
  change (handle_missing df (st.radio missing_options (Some 1%nat)))
    with (dropna df).
  simpl. split.
  - apply dropna_no_missing.
  - apply length_take_mask.
Qed.

Lemma fill_obj_filled (v : pyobj) :
  filled v (fill_obj v) /\ isna (fill_obj v) = false.
Proof.
  unfold filled, fill_obj, is_zero.
  destruct (isna v) eqn:E; simpl; auto.
Qed.

Lemma fill_float_filled (f : float) :
  filled (PFloat f) (PFloat (fill_float f)) /\
  isna (PFloat (fill_float f)) = false.
Proof.
  unfold filled, is_zero. destruct f; simpl; auto.
Qed.

Lemma Series_fillna0_filled (s : Series) :
  Forall2 filled (values s) (values (Series_fillna0 s)) /\
  Forall (fun v => isna v = false) (values (Series_fillna0 s)).
Proof.
  destruct s as [vs|vs|vs|vs]; simpl;
    induction vs as [|v vs [IH1 IH2]]; simpl; split;
    try constructor; try assumption; try reflexivity.
  - apply fill_float_filled.
  - apply fill_float_filled.
  - apply fill_obj_filled.
  - apply fill_obj_filled.
Qed.

(** C3.  Under "Fill with 0" the result has the rows and columns of the
    input, no missing cell, and every cell is the input's, with the
    missing ones set to zero, in text columns too. *)
Theorem fill_zero_policy (df : DataFrame) :
  let df' := handle_missing df (st.radio missing_options (Some 2%nat)) in
  shape0 df' = shape0 df /\
  no_missing df' /\
  Forall2 (fun c c' => fst c' = fst c /\
                       Forall2 filled (values (snd c)) (values (snd c')))
          (data df) (data df').
Proof.
  change (handle_missing df (st.radio missing_options (Some 2%nat)))
    with (fillna0 df).
  simpl. split; [reflexivity|]. unfold no_missing, fillna0. simpl data.
  split.
  - rewrite Forall_map. apply Forall_forall. intros c _. simpl.
    apply Series_fillna0_filled.
  - induction (data df) as [|c cs IH]; simpl; constructor; [|exact IH].
    split; [reflexivity | apply Series_fillna0_filled].
Qed.

(* ------------------------------------------------------------------ *)
(** ** The "None" option of the filter selectbox *)

(** C10.  When the selectbox hands back the text None, whichever option the
    user picked, the filter is skipped and the table passes through; so a
    column that is called None never filters. *)
Theorem filter_sentinel_wins (df : DataFrame) (choice : option nat)
  (rc : option (float * float)) (vc : option (list nat)) :
  st.selectbox (filter_options df) 0 choice = Some "None" ->
  filter_data df (st.selectbox (filter_options df) 0 choice) rc vc = Ok df.
Proof.
  intros ->. reflexivity.
Qed.

Lemma filter_sentinel_wins_witness :
  st.selectbox (filter_options shadowed) 0 (Some 2%nat) = Some "None" /\
  nth_error (columns shadowed) 1 = Some "None" /\
  filter_data shadowed (st.selectbox (filter_options shadowed) 0 (Some 2%nat))
              None (Some []) = Ok shadowed.
Proof.
  split; [reflexivity|]. split; [reflexivity|].
  apply (filter_sentinel_wins shadowed (Some 2%nat) None (Some [])).
  reflexivity.
Defined.

(* ------------------------------------------------------------------ *)
(** ** Std Dev *)

(** C8, as the claim has it: with one observation the metric shows the
    undefined value itself. *)
Lemma std_metric_shows_nan :
  std_metric (int64 [7]%Z) = Ok "nan" /\
  tab3 lonely None None =
    Ok [metric "Mean" "7.00"; metric "Median" "7.00"; metric "Std Dev" "nan";
        write "The **50th percentile** of **score** is: **7.00**"] /\
  std_metric (int64 [7]%Z) <> Ok "not available".
Proof.
  split; [reflexivity|]. split; [reflexivity | discriminate].
Qed.

(** C8, amended.  Below two observations the standard deviation is
    undefined; computing it raises nothing and the metric shows nan. *)
Theorem std_metric_few_observations (s : Series) (xs : list Q) :
  observations s = Ok xs ->
  (List.length xs < 2)%nat ->
  std s = Ok root_nan /\ std_metric s = Ok "nan".
Proof.
  intros Hobs Hlen. unfold std_metric, std. rewrite Hobs. simpl.
  destruct xs as [|x [|y xs]]; simpl in *; try lia; split; reflexivity.
Qed.

Lemma std_metric_few_observations_witness :
  std (float64 [nan; fin (5 # 2)]) = Ok root_nan /\
  std_metric (float64 [nan; fin (5 # 2)]) = Ok "nan".
Proof.
  apply (std_metric_few_observations (float64 [nan; fin (5 # 2)]) [5 # 2]).
  - reflexivity.
  - simpl. lia.
Defined.

(* ------------------------------------------------------------------ *)
(** ** Charts *)

Section VisualizerFacts.

Variable Figure : Type.
Variable px : plotly_express Figure.
Variable st_plotly_chart : Figure -> result unit.

Lemma plot_total (df : DataFrame)
  (chart_type x_axis y_axis color : option string) :
  exists out, plot Figure px st_plotly_chart df chart_type x_axis y_axis color
              = Ok out.
Proof.
  unfold plot, try_except.
  destruct (draw Figure px st_plotly_chart df chart_type x_axis y_axis color);
    eexists; reflexivity.
Qed.

Lemma make_fig_draws (df : DataFrame)
  (chart_type x_axis y_axis color : option string) :
  draws px ->
  In chart_type (map Some chart_options) ->
  exists fig,
    make_fig Figure px df chart_type x_axis y_axis color = Ok fig.
Proof.
  intros [Hs [Hl [Hb [Hh Hx]]]] Hin. unfold make_fig. simpl in Hin.
  destruct Hin as [<- | [<- | [<- | [<- | [<- | []]]]]]; simpl; auto.
Qed.

End VisualizerFacts.

(** C9, as the claim has it: the box plot of the claim, a numeric X and a
    text Y, with a charting library that draws it.  The tab shows the
    chart and no notice: nothing in the tab looks at the column types. *)
Lemma box_plot_over_text_is_drawn :
  nth_error (data people) 0 = Some ("age", float64 [fin 25; nan; fin 40]) /\
  nth_error (data people) 1 =
    Some ("city", object_ [PStr "A"; PStr "B"; PStr "A"]) /\
  tab4 string easy_px (fun _ => Ok tt) people
       (mkCharting (Some 4%nat) (Some 0%nat) (Some 1%nat) None) =
    Ok [plotly_chart "box: Box Plot of city by age"] /\
  forall msg,
    tab4 string easy_px (fun _ => Ok tt) people
         (mkCharting (Some 4%nat) (Some 0%nat) (Some 1%nat) None) <>
    Ok [notice (error msg)].
Proof.
  split; [reflexivity|]. split; [reflexivity|]. split; [reflexivity|].
  intros msg. discriminate.
Qed.

(** C9, amended.  The tab has no check of column types of its own; what it
    shows follows the charting library.  When building or showing the
    chart raises, the exception is caught and the tab shows the error box
    with the exception's message; when it does not, the tab shows the
    chart and no notice; with a library that draws every request, every
    chart type on offer is drawn whatever the columns are.  In no case
    does the tab raise. *)
Theorem chart_notice_follows_the_library (Figure : Type)
  (px : plotly_express Figure) (show : Figure -> result unit)
  (df : DataFrame) (chart_type x_axis y_axis color : option string) :
  (forall e,
      draw Figure px show df chart_type x_axis y_axis color = Raise e ->
      plot Figure px show df chart_type x_axis y_axis color =
      Ok [notice (error ("Could not create chart: " ++ str_exn e ++
            ". Please ensure you selected appropriate columns (e.g., Numeric vs Categorical)."))]) /\
  (forall out,
      draw Figure px show df chart_type x_axis y_axis color = Ok out ->
      plot Figure px show df chart_type x_axis y_axis color = Ok out /\
      exists fig, out = [plotly_chart fig]) /\
  (draws px -> (forall fig, show fig = Ok tt) ->
   In chart_type (map Some chart_options) ->
   exists fig,
     plot Figure px show df chart_type x_axis y_axis color =
     Ok [plotly_chart fig]) /\
  (forall ui, exists out, tab4 Figure px show df ui = Ok out).
Proof.
  split; [|split; [|split]].
  - intros e H. unfold plot. rewrite H. reflexivity.
  - intros out H. unfold plot. rewrite H. split; [reflexivity|].
    unfold draw in H.
    destruct (make_fig Figure px df chart_type x_axis y_axis color)
      as [fig|e]; simpl in H; [|discriminate].
    destruct (show fig); simpl in H; [|discriminate].
    injection H as <-. now exists fig.
  - intros Hdraws Hshow Hin.
    destruct (make_fig_draws Figure px df chart_type x_axis y_axis color
                Hdraws Hin) as [fig Hfig].
    exists fig. unfold plot, draw. rewrite Hfig. simpl.
    now rewrite Hshow.
  - intros ui. apply plot_total.
Qed.

Lemma chart_notice_follows_the_library_witness :
  plot string easy_px (fun _ => Ok tt) people
       (Some "Box Plot") (Some "age") (Some "city") None =
    Ok [plotly_chart "box: Box Plot of city by age"] /\
  exists fig,
    plot string easy_px (fun _ => Ok tt) people
         (Some "Histogram") (Some "city") (Some "age") (Some "city") =
    Ok [plotly_chart fig].
Proof.
  split.
  - destruct (chart_notice_follows_the_library string easy_px
                (fun _ => Ok tt) people
                (Some "Box Plot") (Some "age") (Some "city") None)
      as [_ [Hdrawn _]].
    apply (Hdrawn [plotly_chart "box: Box Plot of city by age"]).
    reflexivity.
  - destruct (chart_notice_follows_the_library string easy_px
                (fun _ => Ok tt) people
                (Some "Histogram") (Some "city") (Some "age") (Some "city"))
      as [_ [_ [Hany _]]].
    apply Hany.
    + unfold draws. repeat split; intros; eexists; reflexivity.
    + reflexivity.
    + simpl. tauto.
Defined.

(** The same text None is the "no grouping" choice of the colour box. *)
Lemma color_sentinel (all_cols : list string) (choice : option nat) :
  st.selectbox ("None" :: all_cols) 0 choice = Some "None" ->
  color_of (st.selectbox ("None" :: all_cols) 0 choice) = None.
Proof.
  intros ->. reflexivity.
Qed.

(* ------------------------------------------------------------------ *)
(** ** Boolean indexing *)

Lemma take_mask_all {A : Type} (m : list bool) (l : list A) :
  all_true m = true -> List.length m = List.length l -> take_mask m l = l.
Proof.
  revert l. induction m as [|b m IH]; intros [|a l]; simpl;
    try discriminate; try reflexivity.
  intros H Hlen. apply andb_true_iff in H. destruct H as [-> H].
  f_equal. apply IH; [assumption | lia].
Qed.


Lemma Series_mask_all (m : list bool) (s : Series) :
  all_true m = true -> List.length m = size s -> Series_mask m s = s.
Proof.
  intros Hm Hlen. unfold size in Hlen.
  destruct s; simpl in *; rewrite ?length_map in Hlen;
    now rewrite take_mask_all.
Qed.

Lemma getitem_mask_all (df : DataFrame) (m : list bool) :
  well_formed df -> all_true m = true -> List.length m = shape0 df ->
  getitem_mask df m = df.
Proof.
  destruct df as [idx cs]. unfold well_formed, getitem_mask, shape0. simpl.
  intros Hwf Hm Hlen. f_equal.
  - now apply take_mask_all.
  - induction Hwf as [|c cs Hc Hwf IH]; simpl; [reflexivity|].
    rewrite IH. f_equal. destruct c as [n s]. simpl in *.
    rewrite Series_mask_all; [reflexivity | assumption | congruence].
Qed.

Lemma lookup_In (name : string) (cs : list (string * Series)) (s : Series) :
  lookup name cs = Some s -> In (name, s) cs.
Proof.
  induction cs as [|[n s0] cs IH]; simpl; [discriminate|].
  destruct (String.eqb name n) eqn:E.
  - apply String.eqb_eq in E. intros [= ->]. subst. now left.
  - intros H. right. now apply IH.
Qed.

Lemma getitem_size (df : DataFrame) (name : string) (s : Series) :
  well_formed df -> getitem df (Some name) = Ok s -> size s = shape0 df.
Proof.
  unfold getitem, well_formed. intros Hwf H.
  destruct (lookup name (data df)) eqn:E; [|discriminate].
  injection H as ->. apply lookup_In in E.
  rewrite Forall_forall in Hwf. exact (Hwf _ E).
Qed.

Lemma active_filter (name : string) :
  name <> "None" -> negb (py_eq (Some name) "None") = true.
Proof.
  intros H. simpl. apply negb_true_iff. now apply String.eqb_neq.
Qed.

(* ------------------------------------------------------------------ *)
(** ** Filter by values *)










(* ------------------------------------------------------------------ *)
(** ** Filter by range *)





Lemma map2_map {A B C D : Type} (f : B -> C -> D) (g : A -> B) (h : A -> C)
  (l : list A) :
  map2 f (map g l) (map h l) = map (fun a => f (g a) (h a)) l.
Proof.
  induction l as [|a l IH]; simpl; congruence.
Qed.

Lemma nums_numeric (s : Series) (fs : list float) :
  nums s = Some fs ->
  is_numeric_dtype s = true /\ List.length fs = size s.
Proof.
  unfold size.
  destruct s; simpl; intros [= <-]; rewrite ?length_map; auto.
Qed.





(** What a slider hands back is its value or the user's pair. *)
Lemma slider_returns (lo hi : float) (value r : float * float)
  (choice : option (float * float)) :
  st.slider lo hi value choice = Ok r ->
  r = match choice with
      | None => value
      | Some c => c
      end.
Proof.
  unfold st.slider. destruct (float_ge lo hi); [discriminate|].
  destruct choice as [c|]; [|now intros [= <-]].
  destruct (st.on_track lo hi c); [now intros [= <-] | discriminate].
Qed.

Lemma filter_data_range (df : DataFrame) (name : string) (s : Series)
  (fs : list float) (rc : option (float * float)) (vc : option (list nat)) :
  name <> "None" ->
  getitem df (Some name) = Ok s ->
  nums s = Some fs ->
  filter_data df (Some name) rc vc =
  (rng <- st.slider (nanmin fs) (nanmax fs) (nanmin fs, nanmax fs) rc ;;
   Ok (getitem_mask df (map (in_range (fst rng) (snd rng)) fs))).
Proof.
  intros Hname Hs Hfs. unfold filter_data.
  rewrite (active_filter name Hname), Hs. simpl bind.
  rewrite (proj1 (nums_numeric s fs Hfs)).
  unfold Series_min, Series_max, Series_ge, Series_le. rewrite Hfs.
  simpl bind.
  destruct (st.slider (nanmin fs) (nanmax fs) (nanmin fs, nanmax fs) rc)
    as [rng|e]; simpl bind; [|reflexivity].
  f_equal. f_equal. unfold and_. rewrite map2_map. reflexivity.
Qed.


(** C4.  The code at the inputs where it leaves the claim: on a column
    with a single value the slider has no track and the run stops with an
    exception instead of returning the table, and on a column with a
    missing cell the untouched full range drops the rows where the cell is
    missing. *)
Theorem full_range_is_not_a_no_op :
  (exists msg,
      filter_data lonely (Some "score") None None =
      Raise (StreamlitAPIException msg)) /\
  filter_data people (Some "age") None None =
    Ok {| index := [0; 2]%Z;
          data := [("age", float64 [fin 25; fin 40]);
                   ("city", object_ [PStr "A"; PStr "A"])] |} /\
  filter_data people (Some "age") None None <> Ok people.
Proof.
  split; [eexists; reflexivity|]. split; [reflexivity | discriminate].
Qed.



(* ------------------------------------------------------------------ *)
(** ** The percentile the slider asks for *)

Lemma fraction_bounds (p : Z) :
  (0 <= p <= 100)%Z -> (0 <= fraction p)%Q /\ (fraction p <= 1)%Q.
Proof.
  intros [H0 H1]. unfold fraction.
  rewrite Zle_Qle in H0, H1. change (inject_Z 100) with 100%Q in H1.
  change (inject_Z 0) with 0%Q in H0. split.
  - apply Qle_shift_div_l; lra.
  - apply Qle_shift_div_r; lra.
Qed.

Lemma p_value_defined (s : Series) (xs : list Q) (p : Z) :
  observations s = Ok xs ->
  (0 <= p <= 100)%Z ->
  p_value s p = Ok (quantile_sorted (sort xs) (fraction p)).
Proof.
  intros Hobs Hp. unfold p_value, quantile.
  destruct (fraction_bounds p Hp) as [H0 H1].
  apply Qle_bool_iff in H0, H1. rewrite H0, H1, Hobs. reflexivity.
Qed.

(* ------------------------------------------------------------------ *)
(** ** Drop rows, the other way round *)

Lemma map2_andb_all (a m : list bool) :
  all_true a = true -> all_true m = true ->
  List.length a = List.length m ->
  all_true (map2 andb a m) = true /\
  List.length (map2 andb a m) = List.length m.
Proof.
  revert m. induction a as [|x a IH]; intros [|y m]; simpl;
    try discriminate; auto.
  intros Ha Hm Hlen. apply andb_true_iff in Ha, Hm.
  destruct Ha as [-> Ha], Hm as [-> Hm].
  destruct (IH m Ha Hm) as [H1 H2]; [lia|]. simpl. split; [assumption | lia].
Qed.

(** A table with no missing cell loses no row. *)
Lemma dropna_keeps_complete_table (df : DataFrame) :
  well_formed df -> no_missing df -> dropna df = df.
Proof.
  intros Hwf Hno. unfold dropna.
  assert (H : all_true (notna_rows df) = true /\
              List.length (notna_rows df) = shape0 df).
  { unfold notna_rows, well_formed, no_missing in *.
    induction (data df) as [|c cs IH]; simpl.
    - split; [|apply repeat_length].
      unfold all_true. apply forallb_forall. intros b Hb.
      now apply repeat_spec in Hb.
    - inversion Hwf as [|? ? Hc Hcs]; subst.
      inversion Hno as [|? ? Hv Hvs]; subst.
      destruct (IH Hcs Hvs) as [H1 H2].
      set (m := fold_right _ _ cs) in *.
      destruct (map2_andb_all (Series_notna (snd c)) m) as [H3 H4];
        [|assumption| |split; [assumption | congruence]].
      + unfold Series_notna, all_true. apply forallb_forall.
        intros b Hb. apply in_map_iff in Hb. destruct Hb as [v [<- Hv']].
        rewrite Forall_forall in Hv. unfold notna. now rewrite (Hv v Hv').
      + unfold Series_notna. rewrite length_map. fold (size (snd c)).
        congruence. }
  destruct H as [H1 H2]. now apply getitem_mask_all.
Qed.

(* ------------------------------------------------------------------ *)
(** ** The scenario of the specification, end to end *)

(** Drop the rows with a missing cell, keep the ages from 30 up (the track
    of the slider ends at 40, the largest age left): one row is left and
    its mean age shows as 40.00. *)
Example cleaning_scenario :
  let ui := mkCleaning None (Some 1%nat) (Some 1%nat)
                       (Some (fin 30, fin 40)) None in
  exists df_clean shown,
    tab2 people ui = Ok (df_clean, shown) /\
    df_clean = {| index := [2]%Z;
                  data := [("age", float64 [fin 40]);
                           ("city", object_ [PStr "A"])] |} /\
    tab3 df_clean None None =
      Ok [metric "Mean" "40.00"; metric "Median" "40.00";
          metric "Std Dev" "nan";
          write "The **50th percentile** of **age** is: **40.00**"].
Proof.
  simpl. eexists. eexists. split; [reflexivity|]. split; reflexivity.
Qed.

(* ------------------------------------------------------------------ *)
(** ** The frame invariant through the cleaning stages *)

Lemma length_take_mask_eq {A B : Type} (m : list bool) (l : list A)
  (r : list B) :
  List.length l = List.length r ->
  List.length (take_mask m l) = List.length (take_mask m r).
Proof.
  revert l r. induction m as [|b m IH]; intros [|a l] [|c r]; simpl;
    try discriminate; try reflexivity.
  intros [= H]. destruct b; simpl; auto.
Qed.

Lemma size_Series_mask (m : list bool) (s : Series) (idx : list Z) :
  size s = List.length idx ->
  size (Series_mask m s) = List.length (take_mask m idx).
Proof.
  unfold size. rewrite values_Series_mask. apply length_take_mask_eq.
Qed.

Lemma well_formed_getitem_mask (df : DataFrame) (m : list bool) :
  well_formed df -> well_formed (getitem_mask df m).
Proof.
  unfold well_formed, getitem_mask, shape0. simpl. intros H.
  rewrite Forall_map. eapply Forall_impl; [|exact H].
  intros c Hc. simpl. now apply size_Series_mask.
Qed.

Lemma size_Series_fillna0 (s : Series) : size (Series_fillna0 s) = size s.
Proof.
  unfold size. destruct s; simpl; now rewrite ?length_map.
Qed.

Lemma well_formed_fillna0 (df : DataFrame) :
  well_formed df -> well_formed (fillna0 df).
Proof.
  unfold well_formed, fillna0, shape0. simpl. intros H.
  rewrite Forall_map. eapply Forall_impl; [|exact H].
  intros c Hc. simpl. now rewrite size_Series_fillna0.
Qed.

Lemma well_formed_handle_missing (df : DataFrame)
  (missing_action : option string) :
  well_formed df -> well_formed (handle_missing df missing_action).
Proof.
  intros H. unfold handle_missing.
  destruct (py_eq missing_action "Drop Rows with Missing Values").
  - now apply well_formed_getitem_mask.
  - destruct (py_eq missing_action "Fill with 0");
      [now apply well_formed_fillna0 | assumption].
Qed.

Lemma columns_handle_missing (df : DataFrame)
  (missing_action : option string) :
  columns (handle_missing df missing_action) = columns df.
Proof.
  unfold handle_missing.
  destruct (py_eq missing_action "Drop Rows with Missing Values").
  - apply columns_getitem_mask.
  - destruct (py_eq missing_action "Fill with 0"); [|reflexivity].
    unfold columns, fillna0. simpl. now rewrite map_map.
Qed.

Lemma shape0_handle_missing (df : DataFrame)
  (missing_action : option string) :
  (shape0 (handle_missing df missing_action) <= shape0 df)%nat.
Proof.
  unfold handle_missing.
  destruct (py_eq missing_action "Drop Rows with Missing Values").
  - apply length_take_mask.
  - destruct (py_eq missing_action "Fill with 0"); apply Nat.le_refl.
Qed.

Lemma well_formed_drop_columns (df df' : DataFrame) (C : list string) :
  well_formed df -> drop_columns df C = Ok df' -> well_formed df'.
Proof.
  intros Hwf. unfold drop_columns, drop.
  destruct C as [|c0 C']; [now intros [= <-]|].
  destruct (filter _ (c0 :: C')); [|discriminate].
  intros [= <-]. unfold well_formed, shape0 in *. simpl.
  rewrite Forall_forall in *. intros c Hc. apply filter_In in Hc.
  now apply Hwf.
Qed.

(** Whatever the filter does, its result is the table itself or a row
    selection of it. *)
Lemma filter_data_selects (df df' : DataFrame) (filter_col : option string)
  (rc : option (float * float)) (vc : option (list nat)) :
  filter_data df filter_col rc vc = Ok df' ->
  df' = df \/ exists m, df' = getitem_mask df m.
Proof.
  unfold filter_data.
  destruct (negb (py_eq filter_col "None")); [|intros [= <-]; now left].
  destruct (getitem df filter_col) as [s|e]; simpl; [|discriminate].
  destruct (is_numeric_dtype s).
  - destruct (Series_min s) as [lo|e]; simpl; [|discriminate].
    destruct (Series_max s) as [hi|e]; simpl; [|discriminate].
    destruct (st.slider lo hi (lo, hi) rc) as [rng|e]; simpl;
      [|discriminate].
    destruct (Series_ge s _) as [ge|e]; simpl; [|discriminate].
    destruct (Series_le s _) as [le|e]; simpl; [|discriminate].
    intros [= <-]. right. eexists. reflexivity.
  - intros [= <-]. right. eexists. reflexivity.
Qed.

Lemma tab2_stages (df df' : DataFrame) (ui : cleaning)
  (out : list element) :
  tab2 df ui = Ok (df', out) ->
  exists d1,
    drop_columns df (st.multiselect (columns df) [] (drop_choice ui)) = Ok d1 /\
    filter_data
      (handle_missing d1 (st.radio missing_options (missing_choice ui)))
      (st.selectbox
         (filter_options
            (handle_missing d1 (st.radio missing_options (missing_choice ui))))
         0 (filter_choice ui))
      (range_choice ui) (values_choice ui) = Ok df' /\
    exists before, out = (before ++ [dataframe df'])%list.
Proof.
  unfold tab2.
  destruct (drop_columns df _) as [d1|e]; simpl; [|discriminate].
  destruct (filter_data _ _ _ _) as [d2|e] eqn:E; simpl; [|discriminate].
  intros [= <- <-]. exists d1. split; [reflexivity|]. split; [exact E|].
  eexists. rewrite app_assoc. reflexivity.
Qed.

(** X1.  Whatever the user does on the cleaning tab, the table it hands on
    has the source's columns minus the dropped ones, in order, never more
    rows than the source, columns as long as its index whenever the source
    had them so, and it is the table shown last on the tab. *)
Theorem tab2_output_contract (df df' : DataFrame) (ui : cleaning)
  (out : list element) :
  tab2 df ui = Ok (df', out) ->
  columns df' =
    filter (fun c => negb (mem c (st.multiselect (columns df) []
                                                 (drop_choice ui))))
           (columns df) /\
  (shape0 df' <= shape0 df)%nat /\
  (well_formed df -> well_formed df') /\
  last out (dataframe df) = dataframe df'.
Proof.
  intros H. apply tab2_stages in H.
  destruct H as [d1 [Hdrop [Hfilter [before ->]]]].
  set (C := st.multiselect (columns df) [] (drop_choice ui)) in *.
  destruct (drop_columns_present df C) as [d1' [Hd [Hcols Hrows]]].
  { apply multiselect_offered. intros x []. }
  rewrite Hdrop in Hd. injection Hd as <-.
  set (d2 := handle_missing d1 _) in *.
  assert (Hc2 : columns d2 = columns d1) by apply columns_handle_missing.
  assert (Hr2 : (shape0 d2 <= shape0 d1)%nat) by apply shape0_handle_missing.
  apply filter_data_selects in Hfilter.
  split; [|split; [|split]].
  - destruct Hfilter as [-> | [m ->]];
      rewrite ?columns_getitem_mask; congruence.
  - destruct Hfilter as [-> | [m ->]]; [lia|].
    assert (shape0 (getitem_mask d2 m) <= shape0 d2)%nat
      by apply length_take_mask. lia.
  - intros Hwf.
    assert (Hw2 : well_formed d2).
    { apply well_formed_handle_missing.
      eapply well_formed_drop_columns; eassumption. }
    destruct Hfilter as [-> | [m ->]];
      [assumption | now apply well_formed_getitem_mask].
  - apply last_last.
Qed.

Lemma tab2_output_contract_witness :
  let ui := mkCleaning (Some [1%nat]) (Some 1%nat) (Some 1%nat)
                       (Some (fin 30, fin 40)) None in
  let df' := {| index := [2]%Z; data := [("age", float64 [fin 40])] |} in
  columns df' =
    filter (fun c => negb (mem c (st.multiselect (columns people) []
                                                 (drop_choice ui))))
           (columns people) /\
  (shape0 df' <= shape0 people)%nat /\
  (well_formed people -> well_formed df') /\
  last [success "Dropped: city"; info "Rows with missing values dropped.";
        dataframe df'] (dataframe people) = dataframe df'.
Proof.
  apply (tab2_output_contract people
           {| index := [2]%Z; data := [("age", float64 [fin 40])] |}
           (mkCleaning (Some [1%nat]) (Some 1%nat) (Some 1%nat)
                       (Some (fin 30, fin 40)) None)).
  reflexivity.
Defined.

(* ------------------------------------------------------------------ *)
(** ** The cleaning tab never fails on what it offers *)




Lemma selectbox_offered (options : list string) (index : nat)
  (choice : option nat) :
  (index < List.length options)%nat -> offered options choice ->
  exists o, st.selectbox options index choice = Some o /\ In o options.
Proof.
  intros Hi Hc. unfold st.selectbox.
  destruct (nth_error options match choice with
                              | Some i => i
                              | None => index
                              end) as [o|] eqn:E.
  - exists o. split; [reflexivity|]. eapply nth_error_In. eassumption.
  - apply nth_error_None in E. destruct choice; simpl in Hc; lia.
Qed.



(* ------------------------------------------------------------------ *)
(** ** Which rows Drop Rows keeps *)

Lemma nth_map2_andb (a m : list bool) (i : nat) :
  nth i (map2 andb a m) false = nth i a false && nth i m false.
Proof.
  revert m i. induction a as [|x a IH]; intros [|y m] [|i]; simpl;
    try reflexivity; try (now rewrite andb_false_r).
  apply IH.
Qed.

Lemma nth_notna_rows (n : nat) (cs : list (string * Series)) (i : nat) :
  nth i (fold_right (fun c m => map2 andb (Series_notna (snd c)) m)
                    (repeat true n) cs) false = true <->
  (i < n)%nat /\
  forall c, In c cs -> nth i (Series_notna (snd c)) false = true.
Proof.
  induction cs as [|c0 cs IH]; simpl.
  - split.
    + intros H. split; [|intros c []].
      destruct (Nat.lt_ge_cases i n) as [Hlt | Hge]; [assumption|].
      rewrite nth_overflow in H by (rewrite repeat_length; lia).
      discriminate.
    + intros [Hlt _]. apply nth_repeat_lt. assumption.
  - rewrite nth_map2_andb, andb_true_iff, IH. split.
    + intros [H0 [Hlt H]]. split; [assumption|].
      intros c [<- | Hc]; auto.
    + intros [Hlt H]. split; [|split]; auto.
Qed.

Lemma nth_Series_notna (s : Series) (i : nat) :
  nth i (Series_notna s) false = true <->
  exists v, nth_error (values s) i = Some v /\ isna v = false.
Proof.
  unfold Series_notna. generalize (values s) as vs. intros vs. revert i.
  induction vs as [|v vs IH]; intros [|i]; simpl.
  - split; [discriminate | intros [v [H _]]; discriminate].
  - split; [discriminate | intros [v [H _]]; discriminate].
  - unfold notna. rewrite negb_true_iff. split.
    + intros H. now exists v.
    + intros [w [[= ->] H]]. exact H.
  - apply IH.
Qed.

(** X3.  Drop Rows keeps a row exactly when none of its cells is missing:
    the mask has one entry per row, and the entry of row [i] is True if
    and only if every column holds a value there. *)
Theorem drop_rows_keeps_exactly (df : DataFrame) (i : nat) :
  well_formed df ->
  (i < shape0 df)%nat ->
  dropna df = getitem_mask df (notna_rows df) /\
  (nth i (notna_rows df) false = true <-> complete_row df i).
Proof.
  intros Hwf Hi. split; [reflexivity|].
  unfold notna_rows. rewrite nth_notna_rows. unfold complete_row. split.
  - intros [_ H] c v Hc Hv. apply H, nth_Series_notna in Hc.
    destruct Hc as [w [Hw Hna]]. congruence.
  - intros H. split; [assumption|]. intros c Hc.
    apply nth_Series_notna.
    unfold well_formed in Hwf. rewrite Forall_forall in Hwf.
    specialize (Hwf c Hc). unfold size in Hwf.
    destruct (nth_error (values (snd c)) i) as [v|] eqn:E.
    + exists v. split; [reflexivity|]. eapply H; eassumption.
    + apply nth_error_None in E. lia.
Qed.

Lemma drop_rows_keeps_exactly_witness :
  dropna people = getitem_mask people (notna_rows people) /\
  (nth 1 (notna_rows people) false = true <-> complete_row people 1).
Proof.
  apply (drop_rows_keeps_exactly people 1).
  - unfold well_formed. simpl. repeat constructor.
  - unfold shape0. simpl. lia.
Defined.

(* ------------------------------------------------------------------ *)
(** ** A table with nothing missing *)

Lemma fill_nothing_missing (s : Series) :
  Forall (fun v => isna v = false) (values s) -> Series_fillna0 s = s.
Proof.
  destruct s as [vs|vs|vs|vs]; simpl; try reflexivity; intros H; f_equal.
  - induction vs as [|f vs IH]; simpl; [reflexivity|].
    inversion H as [|? ? Hf Hvs]; subst. rewrite IH by assumption.
    destruct f; [discriminate | reflexivity].
  - induction vs as [|v vs IH]; simpl; [reflexivity|].
    inversion H as [|? ? Hv Hvs]; subst. rewrite IH by assumption.
    unfold fill_obj. now rewrite Hv.
Qed.

Lemma fillna0_nothing_missing (df : DataFrame) :
  no_missing df -> fillna0 df = df.
Proof.
  destruct df as [idx cs]. unfold no_missing, fillna0. simpl. intros H.
  f_equal. induction H as [|[n s] cs Hs H IH]; simpl; [reflexivity|].
  rewrite IH. simpl in Hs. now rewrite fill_nothing_missing.
Qed.

(** X4.  On a table with no missing value the missing-value control
    changes nothing, whichever action is picked. *)
Theorem complete_table_is_left_alone (df : DataFrame) (choice : option nat) :
  well_formed df ->
  no_missing df ->
  handle_missing df (st.radio missing_options choice) = df.
Proof.
  intros Hwf Hno. unfold handle_missing.
  destruct (py_eq _ "Drop Rows with Missing Values");
    [now apply dropna_keeps_complete_table|].
  destruct (py_eq _ "Fill with 0");
    [now apply fillna0_nothing_missing | reflexivity].
Qed.

Lemma complete_table_is_left_alone_witness :
  handle_missing scores (st.radio missing_options (Some 1%nat)) = scores /\
  handle_missing scores (st.radio missing_options (Some 2%nat)) = scores.
Proof.
  assert (Hwf : well_formed scores)
    by (unfold well_formed; simpl; repeat constructor).
  assert (Hno : no_missing scores)
    by (unfold no_missing; simpl; repeat constructor).
  split.
  - exact (complete_table_is_left_alone scores (Some 1%nat) Hwf Hno).
  - exact (complete_table_is_left_alone scores (Some 2%nat) Hwf Hno).
Defined.

(* ------------------------------------------------------------------ *)
(** ** What the filter keeps *)

Lemma take_mask_filter {A : Type} (P : A -> bool) (l : list A) :
  take_mask (map P l) l = filter P l.
Proof.
  induction l as [|a l IH]; simpl; [reflexivity|].
  rewrite IH. reflexivity.
Qed.

Lemma lookup_map (F : Series -> Series) (n : string)
  (cs : list (string * Series)) :
  lookup n (map (fun c => (fst c, F (snd c))) cs) =
  option_map F (lookup n cs).
Proof.
  induction cs as [|[n0 s0] cs IH]; simpl; [reflexivity|].
  destruct (String.eqb n n0); [reflexivity | exact IH].
Qed.

Lemma getitem_getitem_mask (df : DataFrame) (m : list bool) (n : string)
  (s : Series) :
  getitem df (Some n) = Ok s ->
  getitem (getitem_mask df m) (Some n) = Ok (Series_mask m s).
Proof.
  unfold getitem, getitem_mask. simpl. rewrite lookup_map.
  destruct (lookup n (data df)); [|discriminate].
  now intros [= ->].
Qed.

Lemma nums_Series_mask (m : list bool) (s : Series) (fs : list float) :
  nums s = Some fs -> nums (Series_mask m s) = Some (take_mask m fs).
Proof.
  destruct s; simpl; intros [= <-]; now rewrite ?take_mask_map.
Qed.

Lemma filter_data_range_returns (df df' : DataFrame) (n : string)
  (s : Series) (fs : list float) (lo hi : float) (vc : option (list nat)) :
  n <> "None" ->
  getitem df (Some n) = Ok s ->
  nums s = Some fs ->
  filter_data df (Some n) (Some (lo, hi)) vc = Ok df' ->
  df' = getitem_mask df (map (in_range lo hi) fs).
Proof.
  intros Hn Hs Hfs H.
  rewrite (filter_data_range df n s fs) in H by assumption.
  destruct (st.slider (nanmin fs) (nanmax fs) (nanmin fs, nanmax fs)
              (Some (lo, hi))) as [rng|e] eqn:E; simpl in H; [|discriminate].
  apply slider_returns in E. subst rng. now injection H as <-.
Qed.

(** X5.  After a range filter with bounds [lo] and [hi], the filter column
    of the result holds exactly the cells of the input column that are
    present and inside the closed range, in their order: none outside it
    stays, none inside it is lost. *)
Theorem range_filter_keeps_the_range (df df' : DataFrame) (n : string)
  (s : Series) (fs : list float) (lo hi : float) (vc : option (list nat)) :
  n <> "None" ->
  getitem df (Some n) = Ok s ->
  nums s = Some fs ->
  filter_data df (Some n) (Some (lo, hi)) vc = Ok df' ->
  exists s',
    getitem df' (Some n) = Ok s' /\
    nums s' = Some (filter (in_range lo hi) fs) /\
    Forall (fun f => exists q, f = fin q /\ float_le lo (fin q) = true /\
                               float_le (fin q) hi = true)
           (filter (in_range lo hi) fs).
Proof.
  intros Hn Hs Hfs H.
  apply (filter_data_range_returns df df' n s fs lo hi vc Hn Hs Hfs) in H.
  subst df'.
  exists (Series_mask (map (in_range lo hi) fs) s).
  split; [now apply getitem_getitem_mask|]. split.
  - rewrite (nums_Series_mask _ s fs) by assumption.
    now rewrite take_mask_filter.
  - apply Forall_forall. intros f Hf. apply filter_In in Hf.
    destruct Hf as [_ Hf]. unfold in_range in Hf.
    apply andb_true_iff in Hf. destruct Hf as [H1 H2].
    destruct f as [|q]; [destruct lo; discriminate|].
    exists q. auto.
Qed.

Lemma range_filter_keeps_the_range_witness :
  exists s',
    getitem {| index := [2]%Z;
               data := [("age", float64 [fin 40]);
                        ("city", object_ [PStr "A"])] |} (Some "age")
      = Ok s' /\
    nums s' = Some (filter (in_range (fin 30) (fin 40))
                           [fin 25; nan; fin 40]) /\
    Forall (fun f => exists q, f = fin q /\
                               float_le (fin 30) (fin q) = true /\
                               float_le (fin q) (fin 40) = true)
           (filter (in_range (fin 30) (fin 40)) [fin 25; nan; fin 40]).
Proof.
  apply (range_filter_keeps_the_range people _ "age"
           (float64 [fin 25; nan; fin 40]) [fin 25; nan; fin 40]
           (fin 30) (fin 40) None).
  - discriminate.
  - reflexivity.
  - reflexivity.
  - reflexivity.
Defined.

(** X6.  After a filter by values on a column that is not numeric, the
    filter column of the result holds exactly the cells of the input
    column that equal one of the picked values, and every picked value is
    one of the column's distinct values. *)
Theorem membership_filter_keeps_the_picked (df df' : DataFrame) (n : string)
  (s : Series) (rc : option (float * float)) (vc : option (list nat)) :
  n <> "None" ->
  getitem df (Some n) = Ok s ->
  is_numeric_dtype s = false ->
  filter_data df (Some n) rc vc = Ok df' ->
  let selected_vals := st.multiselect (unique s) (unique s) vc in
  incl selected_vals (unique s) /\
  exists s',
    getitem df' (Some n) = Ok s' /\
    values s' = filter (fun v => existsb (pyobj_eqb v) selected_vals)
                       (values s).
Proof.
  intros Hn Hs Hnum H. unfold filter_data in H.
  rewrite (active_filter n Hn), Hs in H. simpl bind in H.
  rewrite Hnum in H. cbv zeta in H. injection H as <-.
  intros selected_vals. split.
  - apply multiselect_offered. apply incl_refl.
  - exists (Series_mask (isin s selected_vals) s). split.
    + apply getitem_getitem_mask. exact Hs.
    + rewrite values_Series_mask. unfold isin. apply take_mask_filter.
Qed.

Lemma membership_filter_keeps_the_picked_witness :
  let selected_vals :=
    st.multiselect (unique (object_ [PStr "A"; PStr "B"; PStr "A"]))
                   (unique (object_ [PStr "A"; PStr "B"; PStr "A"]))
                   (Some [1%nat]) in
  incl selected_vals (unique (object_ [PStr "A"; PStr "B"; PStr "A"])) /\
  exists s',
    getitem {| index := [1]%Z;
               data := [("age", float64 [nan]);
                        ("city", object_ [PStr "B"])] |} (Some "city")
      = Ok s' /\
    values s' = filter (fun v => existsb (pyobj_eqb v) selected_vals)
                       (values (object_ [PStr "A"; PStr "B"; PStr "A"])).
Proof.
  apply (membership_filter_keeps_the_picked people _ "city"
           (object_ [PStr "A"; PStr "B"; PStr "A"]) None (Some [1%nat])).
  - discriminate.
  - reflexivity.
  - reflexivity.
  - reflexivity.
Defined.

Lemma float_le_trans (a b c : float) :
  float_le a b = true -> float_le b c = true -> float_le a c = true.
Proof.
  destruct a, b, c; simpl; try discriminate.
  rewrite !Qle_bool_iff. apply Qle_trans.
Qed.

Lemma within_map {A : Type} (P Q : A -> bool) (l : list A) :
  (forall a, P a = true -> Q a = true) -> within (map P l) (map Q l).
Proof.
  intros H. induction l as [|a l IH]; simpl; auto.
Qed.

Lemma take_mask_within_incl {A : Type} (m n : list bool) (l : list A) :
  within m n -> List.length n = List.length l ->
  incl (take_mask m l) (take_mask n l) /\
  (List.length (take_mask m l) <= List.length (take_mask n l))%nat.
Proof.
  revert n l. induction m as [|b m IH]; intros [|c n] [|a l]; simpl;
    try discriminate;
    try (intros; split; [intros x [] | lia]).
  intros [Hbc Hw] [= Hlen]. destruct (IH n l Hw Hlen) as [Hi Hl].
  destruct b; [rewrite Hbc by reflexivity|destruct c]; simpl; split;
    try lia.
  - intros x [<- | Hx]; [now left | right; now apply Hi].
  - intros x Hx. right. now apply Hi.
  - exact Hi.
Qed.

(** X7.  Narrowing the range never brings a row back: with bounds inside
    the earlier ones, every row label kept by the narrower filter is kept
    by the wider one, and the narrower result has no more rows. *)
Theorem narrowing_the_range_only_removes (df wide narrow : DataFrame)
  (n : string) (s : Series) (fs : list float) (lo hi lo' hi' : float)
  (vc : option (list nat)) :
  well_formed df ->
  n <> "None" ->
  getitem df (Some n) = Ok s ->
  nums s = Some fs ->
  float_le lo lo' = true ->
  float_le hi' hi = true ->
  filter_data df (Some n) (Some (lo, hi)) vc = Ok wide ->
  filter_data df (Some n) (Some (lo', hi')) vc = Ok narrow ->
  incl (index narrow) (index wide) /\
  (shape0 narrow <= shape0 wide)%nat.
Proof.
  intros Hwf Hn Hs Hfs Hlo Hhi Hw Hnw.
  apply (filter_data_range_returns df wide n s fs lo hi vc Hn Hs Hfs) in Hw.
  apply (filter_data_range_returns df narrow n s fs lo' hi' vc Hn Hs Hfs)
    in Hnw.
  subst wide narrow.
  unfold shape0, getitem_mask. simpl index.
  apply take_mask_within_incl.
  - apply within_map. intros f. unfold in_range.
    rewrite !andb_true_iff. intros [H1 H2]. split.
    + eapply float_le_trans; eassumption.
    + eapply float_le_trans; eassumption.
  - rewrite length_map, (proj2 (nums_numeric s fs Hfs)).
    eapply getitem_size; eassumption.
Qed.

Lemma narrowing_the_range_only_removes_witness :
  incl (index {| index := [1]%Z;
                 data := [("name", object_ [PStr "bob"]);
                          ("score", int64 [1]%Z)] |})
       (index {| index := [1; 2]%Z;
                 data := [("name", object_ [PStr "bob"; PStr "cy"]);
                          ("score", int64 [1; 2]%Z)] |}) /\
  (shape0 {| index := [1]%Z;
             data := [("name", object_ [PStr "bob"]);
                      ("score", int64 [1]%Z)] |} <=
   shape0 {| index := [1; 2]%Z;
             data := [("name", object_ [PStr "bob"; PStr "cy"]);
                      ("score", int64 [1; 2]%Z)] |})%nat.
Proof.
  apply (narrowing_the_range_only_removes scores
           {| index := [1; 2]%Z;
              data := [("name", object_ [PStr "bob"; PStr "cy"]);
                       ("score", int64 [1; 2]%Z)] |}
           {| index := [1]%Z;
              data := [("name", object_ [PStr "bob"]);
                       ("score", int64 [1]%Z)] |}
           "score" (int64 [3; 1; 2]%Z) [fin 3; fin 1; fin 2]
           (fin 1) (fin 2) (fin 1) (fin (3 # 2)) None).
  - unfold well_formed. simpl. repeat constructor.
  - discriminate.
  - reflexivity.
  - reflexivity.
  - reflexivity.
  - reflexivity.
  - reflexivity.
  - reflexivity.
Defined.

(* ------------------------------------------------------------------ *)
(** ** Cleaning first, filtering next *)






(* ------------------------------------------------------------------ *)
(** ** The statistics tab *)

Lemma lookup_NoDup (n : string) (s : Series) (cs : list (string * Series)) :
  NoDup (map fst cs) -> In (n, s) cs -> lookup n cs = Some s.
Proof.
  induction cs as [|[n0 s0] cs IH]; simpl; [intros _ []|].
  intros Hnd [[= -> ->] | Hin].
  - now rewrite String.eqb_refl.
  - inversion Hnd as [|? ? Hnot Hnd']; subst.
    destruct (String.eqb n n0) eqn:E; [|now apply IH].
    apply String.eqb_eq in E. subst. exfalso. apply Hnot.
    apply in_map_iff. now exists (n0, s).
Qed.

Lemma observations_defined (s : Series) :
  is_float64_or_int64 s = true -> exists xs, observations s = Ok xs.
Proof.
  destruct s; simpl; try discriminate; intros _; eexists; reflexivity.
Qed.

Lemma numeric_cols_selected (df : DataFrame) (n : string) :
  NoDup (columns df) ->
  In n (select_dtypes_float64_int64 df) ->
  exists s xs, getitem df (Some n) = Ok s /\ observations s = Ok xs.
Proof.
  intros Hnd Hin. unfold select_dtypes_float64_int64 in Hin.
  apply in_map_iff in Hin. destruct Hin as [[n' s] [Hn Hin]].
  simpl in Hn. subst n'. apply filter_In in Hin. destruct Hin as [Hin Hty].
  simpl in Hty. destruct (observations_defined s Hty) as [xs Hxs].
  exists s, xs. split; [|assumption].
  unfold getitem. now rewrite (lookup_NoDup n s (data df) Hnd Hin).
Qed.

(** X9.  On a table whose column names are distinct, the statistics tab
    raises nothing for any offered column and any percentile from 0 to
    100: with no float64 or int64 column it shows the one warning, and
    otherwise the three metrics and the percentile sentence. *)
Theorem tab3_never_raises (df : DataFrame) (cc : option nat)
  (pc : option Z) :
  NoDup (columns df) ->
  offered (select_dtypes_float64_int64 df) cc ->
  (forall p, pc = Some p -> (0 <= p <= 100)%Z) ->
  exists out,
    tab3 df cc pc = Ok out /\
    (select_dtypes_float64_int64 df = [] ->
     out = [warning "No numeric columns found in the dataset."]) /\
    (select_dtypes_float64_int64 df <> [] ->
     exists m md sd sentence,
       out = [metric "Mean" m; metric "Median" md; metric "Std Dev" sd;
              write sentence]).
Proof.
  intros Hnd Hoff Hp. unfold tab3.
  destruct (select_dtypes_float64_int64 df) as [|c0 cols] eqn:E.
  - eexists. split; [reflexivity|]. split; [reflexivity | congruence].
  - destruct (selectbox_offered (c0 :: cols) 0 cc) as [n [Hn Hin]];
      [simpl; lia | assumption |].
    rewrite Hn. rewrite <- E in Hin.
    destruct (numeric_cols_selected df n Hnd Hin) as [s [xs [Hs Hxs]]].
    rewrite Hs. simpl bind.
    unfold mean, median, std_metric, std. rewrite Hxs. simpl bind.
    assert (Hpc : (0 <= st.slider1 0 100 50 pc <= 100)%Z)
      by (destruct pc as [p|]; simpl; [now apply Hp | lia]).
    rewrite (p_value_defined s xs _ Hxs Hpc).
    simpl bind. eexists. split; [reflexivity|].
    split; [discriminate|]. intros _. repeat eexists.
Qed.

Lemma tab3_never_raises_witness :
  exists out,
    tab3 scores (Some 0%nat) (Some 90%Z) = Ok out /\
    (select_dtypes_float64_int64 scores = [] ->
     out = [warning "No numeric columns found in the dataset."]) /\
    (select_dtypes_float64_int64 scores <> [] ->
     exists m md sd sentence,
       out = [metric "Mean" m; metric "Median" md; metric "Std Dev" sd;
              write sentence]).
Proof.
  apply (tab3_never_raises scores (Some 0%nat) (Some 90%Z)).
  - unfold columns. simpl. repeat constructor; simpl; intuition discriminate.
  - simpl. lia.
  - intros p [= <-]. lia.
Defined.

(* ------------------------------------------------------------------ *)
(** ** A column with nothing to measure *)

(** X21.  On a float64 or int64 column with no observation (no row left,
    or only missing cells), every statistic is NaN and none raises: the
    tab shows nan under Mean, Median and Std Dev and in the percentile
    sentence, whatever percentile from 0 to 100 is asked. *)
Theorem statistics_of_nothing (df : DataFrame) (cc : option nat)
  (pc : option Z) (n : string) (s : Series) :
  select_dtypes_float64_int64 df <> [] ->
  st.selectbox (select_dtypes_float64_int64 df) 0 cc = Some n ->
  getitem df (Some n) = Ok s ->
  observations s = Ok [] ->
  (forall p, pc = Some p -> (0 <= p <= 100)%Z) ->
  mean s = Ok nan /\
  median s = Ok nan /\
  std s = Ok root_nan /\
  p_value s (st.slider1 0 100 50 pc) = Ok nan /\
  tab3 df cc pc =
    Ok [metric "Mean" "nan"; metric "Median" "nan"; metric "Std Dev" "nan";
        write ("The **" ++ str_int (st.slider1 0 100 50 pc) ++
               "th percentile** of **" ++ n ++ "** is: **nan**")].
Proof.
  intros Hne Hn Hs Hobs Hp.
  assert (Hpc : (0 <= st.slider1 0 100 50 pc <= 100)%Z)
    by (destruct pc as [p|]; simpl; [now apply Hp | lia]).
  assert (Hq : p_value s (st.slider1 0 100 50 pc) = Ok nan)
    by (rewrite (p_value_defined s [] _ Hobs Hpc); reflexivity).
  assert (Hm : mean s = Ok nan) by (unfold mean; now rewrite Hobs).
  assert (Hmd : median s = Ok nan) by (unfold median; now rewrite Hobs).
  assert (Hsd : std s = Ok root_nan) by (unfold std; now rewrite Hobs).
  repeat (split; [assumption|]).
  unfold tab3.
  destruct (select_dtypes_float64_int64 df) as [|c0 cols]; [congruence|].
  rewrite Hn, Hs. simpl bind. unfold std_metric.
  rewrite Hm, Hmd, Hsd. simpl bind. rewrite Hq. reflexivity.
Qed.

Lemma statistics_of_nothing_witness :
  let df := {| index := [];
               data := [("age", float64 []); ("city", object_ [])] |} in
  mean (float64 []) = Ok nan /\
  median (float64 []) = Ok nan /\
  std (float64 []) = Ok root_nan /\
  p_value (float64 []) (st.slider1 0 100 50 (Some 90%Z)) = Ok nan /\
  tab3 df None (Some 90%Z) =
    Ok [metric "Mean" "nan"; metric "Median" "nan"; metric "Std Dev" "nan";
        write ("The **" ++ str_int (st.slider1 0 100 50 (Some 90%Z)) ++
               "th percentile** of **" ++ "age" ++ "** is: **nan**")].
Proof.
  apply (statistics_of_nothing
           {| index := [];
              data := [("age", float64 []); ("city", object_ [])] |}
           None (Some 90%Z) "age" (float64 [])).
  - discriminate.
  - reflexivity.
  - reflexivity.
  - reflexivity.
  - intros p [= <-]. lia.
Defined.

(** X22.  On a table whose column names are distinct, a column the
    statistics tab offers is one the filter treats as numeric: chosen as
    filter column it gets the range slider, never the value picker. *)
Theorem statistics_columns_are_numeric (df : DataFrame) (n : string) :
  NoDup (columns df) ->
  In n (select_dtypes_float64_int64 df) ->
  exists s,
    getitem df (Some n) = Ok s /\
    is_numeric_dtype s = true /\
    is_float64_or_int64 s = true.
Proof.
  intros Hnd Hin. unfold select_dtypes_float64_int64 in Hin.
  apply in_map_iff in Hin. destruct Hin as [[n' s] [Hn Hin]].
  simpl in Hn. subst n'. apply filter_In in Hin. destruct Hin as [Hin Hty].
  simpl in Hty. exists s. split; [|split; [|assumption]].
  - unfold getitem. now rewrite (lookup_NoDup n s (data df) Hnd Hin).
  - destruct s; simpl in *; try reflexivity; discriminate.
Qed.

Lemma statistics_columns_are_numeric_witness :
  exists s,
    getitem scores (Some "score") = Ok s /\
    is_numeric_dtype s = true /\
    is_float64_or_int64 s = true.
Proof.
  apply (statistics_columns_are_numeric scores "score").
  - unfold columns. simpl. repeat constructor; simpl; intuition discriminate.
  - simpl. left. reflexivity.
Defined.

(* ------------------------------------------------------------------ *)
(** ** The variance under the standard deviation *)

Lemma Qsquare_nonneg (a : Q) : (0 <= a * a)%Q.
Proof.
  unfold Qle, Qmult. simpl. rewrite Z.mul_1_r. apply Z.square_nonneg.
Qed.

Lemma Qsum_squares_nonneg (m : Q) (xs : list Q) :
  (0 <= Qsum (map (fun x => (x - m) * (x - m)) xs))%Q.
Proof.
  induction xs as [|x xs IH]; simpl; [apply Qle_refl|].
  pose proof (Qsquare_nonneg (x - m)). lra.
Qed.

Lemma var_obs_nonneg (xs : list Q) (v : Q) :
  var_obs xs = fin v -> (2 <= List.length xs)%nat /\ (0 <= v)%Q.
Proof.
  unfold var_obs. destruct xs as [|x [|y xs]]; try discriminate.
  set (l := x :: y :: xs). cbv zeta. intros [= <-].
  split; [simpl; lia|].
  assert (Hpos : (0 < Qlen l - 1)%Q).
  { unfold Qlen, l. simpl List.length. rewrite !Nat2Z.inj_succ.
    unfold Z.succ. rewrite !inject_Z_plus. change (inject_Z 1) with 1%Q.
    assert (0 <= inject_Z (Z.of_nat (List.length xs)))%Q
      by (change 0%Q with (inject_Z 0); rewrite <- Zle_Qle; lia).
    lra. }
  apply Qle_shift_div_l; [assumption|].
  rewrite Qmult_0_l. exact (Qsum_squares_nonneg (Qsum l / Qlen l) l).
Qed.

(** X12.  When the standard deviation is a number, the column has at
    least two observations and the variance under the square root is not
    negative, so the root is a real number. *)
Theorem std_is_a_real_root (s : Series) (xs : list Q) (v : Q) :
  observations s = Ok xs ->
  std s = Ok (sqrt v) ->
  (2 <= List.length xs)%nat /\ (0 <= v)%Q.
Proof.
  intros Hobs. unfold std. rewrite Hobs. simpl bind.
  destruct (var_obs xs) as [|w] eqn:E; [discriminate|].
  intros [= <-]. now apply var_obs_nonneg.
Qed.

Lemma std_is_a_real_root_witness :
  exists v,
    std (int64 [1; 2]%Z) = Ok (sqrt v) /\
    (2 <= List.length [1; 2]%Q)%nat /\ (0 <= v)%Q.
Proof.
  eexists. split; [reflexivity|].
  apply (std_is_a_real_root (int64 [1; 2]%Z) [1; 2]%Q).
  - reflexivity.
  - reflexivity.
Defined.

(* ------------------------------------------------------------------ *)
(** ** The chart tab *)

(** X13.  Every chart type on offer is handled: when the charting library
    draws what it is asked and the page shows it, the tab shows one chart
    and no error box, so no offered type leaves [fig] unbound. *)
Theorem every_chart_type_is_drawn (Figure : Type)
  (px : plotly_express Figure) (show : Figure -> result unit)
  (df : DataFrame) (ui : charting) :
  draws px ->
  (forall fig, show fig = Ok tt) ->
  offered chart_options (chart_choice ui) ->
  exists fig, tab4 Figure px show df ui = Ok [plotly_chart fig].
Proof.
  intros [Hs [Hl [Hb [Hh Hx]]]] Hshow Hoff.
  unfold tab4, plot, draw.
  set (x := st.selectbox (columns df) 0 (x_choice ui)).
  set (y := st.selectbox (columns df) _ (y_choice ui)).
  set (c := color_of _).
  assert (Hdone : forall r : result Figure,
             (exists fig, r = Ok fig) ->
             exists fig,
               try_except (fig <- r ;; _ <- show fig ;; Ok [plotly_chart fig])
                 (fun e => Ok [notice (error (chart_error e))]) =
               Ok [plotly_chart fig]).
  { intros r [fig ->]. exists fig. simpl. now rewrite Hshow. }
  unfold offered in Hoff. unfold st.selectbox.
  destruct (chart_choice ui) as [i|]; simpl nth_error.
  - do 5 (destruct i as [|i]; [apply Hdone; unfold make_fig; simpl; auto|]).
    simpl in Hoff. lia.
  - apply Hdone. unfold make_fig. simpl. auto.
Qed.

Lemma every_chart_type_is_drawn_witness :
  exists fig,
    tab4 string easy_px (fun _ => Ok tt) people
         (mkCharting (Some 4%nat) None None (Some 2%nat)) =
    Ok [plotly_chart fig].
Proof.
  apply (every_chart_type_is_drawn string easy_px (fun _ => Ok tt) people
           (mkCharting (Some 4%nat) None None (Some 2%nat))).
  - unfold draws. repeat split; intros; eexists; reflexivity.
  - reflexivity.
  - simpl. lia.
Defined.

Lemma color_of_column (o : option string) (options : list string) :
  (forall c, o = Some c -> In c options) ->
  forall c, color_of o = Some c -> In c options /\ c <> "None".
Proof.
  intros H c. unfold color_of. destruct o as [t|]; simpl; [|discriminate].
  destruct (String.eqb t "None") eqn:E; [discriminate|].
  intros [= ->]. split.
  - now apply H.
  - now apply String.eqb_neq.
Qed.

(** X14.  On a table with a column, with every box at an offered option
    (or untouched), the axes handed to the charting library are columns of
    the cleaned table, the default Y index included, and the grouping
    column is either absent or a column that is not called None. *)
Theorem chart_axes_are_columns (Figure : Type) (px : plotly_express Figure)
  (show : Figure -> result unit) (df : DataFrame) (ui : charting) :
  columns df <> [] ->
  offered (columns df) (x_choice ui) ->
  offered (columns df) (y_choice ui) ->
  offered ("None" :: columns df) (color_choice ui) ->
  exists x y color,
    tab4 Figure px show df ui =
      plot Figure px show df (st.selectbox chart_options 0 (chart_choice ui))
           (Some x) (Some y) color /\
    In x (columns df) /\
    In y (columns df) /\
    (forall c, color = Some c -> In c (columns df) /\ c <> "None").
Proof.
  intros Hne Hx Hy Hc. unfold tab4.
  assert (Hlen : (0 < List.length (columns df))%nat)
    by (destruct (columns df); [congruence | simpl; lia]).
  destruct (selectbox_offered (columns df) 0 (x_choice ui)) as [x [Ex Hinx]];
    [assumption | assumption |].
  destruct (selectbox_offered (columns df)
              (if Nat.ltb 1 (List.length (columns df)) then 1 else 0)
              (y_choice ui)) as [y [Ey Hiny]]; [| assumption |].
  { destruct (Nat.ltb 1 (List.length (columns df))) eqn:E;
      [apply Nat.ltb_lt in E|]; lia. }
  destruct (selectbox_offered ("None" :: columns df) 0 (color_choice ui))
    as [k [Ek Hink]]; [simpl; lia | assumption |].
  rewrite Ex, Ey, Ek. exists x, y, (color_of (Some k)).
  split; [reflexivity|]. split; [assumption|]. split; [assumption|].
  intros c Hcol.
  destruct (color_of_column (Some k) ("None" :: columns df)) with (c := c)
    as [Hin Hnot]; [now intros ? [= <-] | assumption |].
  split; [|assumption]. destruct Hin as [H | H]; [congruence | assumption].
Qed.

Lemma chart_axes_are_columns_witness :
  exists x y color,
    tab4 string easy_px (fun _ => Ok tt) shadowed
         (mkCharting None None None (Some 2%nat)) =
      plot string easy_px (fun _ => Ok tt) shadowed
           (st.selectbox chart_options 0 None) (Some x) (Some y) color /\
    In x (columns shadowed) /\
    In y (columns shadowed) /\
    (forall c, color = Some c -> In c (columns shadowed) /\ c <> "None").
Proof.
  apply (chart_axes_are_columns string easy_px (fun _ => Ok tt) shadowed
           (mkCharting None None None (Some 2%nat))).
  - discriminate.
  - exact I.
  - exact I.
  - simpl. lia.
Defined.

(* ------------------------------------------------------------------ *)
(** ** The upload *)

Section PageFacts.

Variable Figure : Type.

Lemma plot_single (px : plotly_express Figure)
  (show : Figure -> result unit) (df : DataFrame)
  (chart_type x_axis y_axis color : option string) :
  exists r, plot Figure px show df chart_type x_axis y_axis color = Ok [r].
Proof.
  unfold plot, draw, try_except, bind.
  destruct (make_fig Figure px df chart_type x_axis y_axis color) as [fig|e];
    [destruct (show fig) |]; eexists; reflexivity.
Qed.

Lemma removelast_app_single {A : Type} (l : list A) (a : A) :
  removelast (l ++ [a]) = l.
Proof.
  rewrite removelast_app by discriminate. simpl. apply app_nil_r.
Qed.

End PageFacts.

(** X15.  A file that cannot be decoded never makes the page raise: the
    decoder is picked by the suffix of the name (".csv", in that case
    only, goes to the CSV reader), and when it raises the page is the one
    error box with the decoder's message, no tab is run. *)
Theorem failed_upload_is_one_error_box (Figure : Type)
  (px : plotly_express Figure) (show : Figure -> result unit)
  (read_csv read_excel : UploadedFile -> result DataFrame)
  (describe : DataFrame -> result DataFrame)
  (file : UploadedFile) (ui : session) (e : exn) :
  (if endswith (name file) ".csv" then read_csv file else read_excel file)
    = Raise e ->
  load_data read_csv read_excel file =
    Ok (None, [error ("Error loading file: " ++ str_exn e)]) /\
  main Figure px show read_csv read_excel describe (Some file) ui =
    Ok [shown (notice (error ("Error loading file: " ++ str_exn e)))].
Proof.
  intros H.
  assert (Hload : load_data read_csv read_excel file =
                  Ok (None, [error ("Error loading file: " ++ str_exn e)])).
  { unfold load_data. rewrite H. reflexivity. }
  split; [exact Hload|]. unfold main. rewrite Hload. reflexivity.
Qed.

Lemma failed_upload_is_one_error_box_witness :
  load_data one_file (fun _ => Raise (ValueError "not a workbook"))
            (mkUploadedFile "people.CSV" "age,city") =
    Ok (None, [error ("Error loading file: " ++
                      str_exn (ValueError "not a workbook"))]) /\
  main string easy_px (fun _ => Ok tt) one_file
       (fun _ => Raise (ValueError "not a workbook")) count_only
       (Some (mkUploadedFile "people.CSV" "age,city"))
       (mkSession (mkCleaning None None None None None) None None
                  (mkCharting None None None None)) =
    Ok [shown (notice (error ("Error loading file: " ++
                              str_exn (ValueError "not a workbook"))))].
Proof.
  apply (failed_upload_is_one_error_box string easy_px (fun _ => Ok tt)
           one_file (fun _ => Raise (ValueError "not a workbook")) count_only
           (mkUploadedFile "people.CSV" "age,city")).
  reflexivity.
Defined.

(** X16.  The charting library never takes the page down: with any two
    charting libraries the page raises in the same cases with the same
    exception, and otherwise the two pages have as many items and differ
    at most in the last one, the chart or its error box. *)
Theorem charts_never_take_the_page_down (Figure : Type)
  (px1 px2 : plotly_express Figure) (show1 show2 : Figure -> result unit)
  (read_csv read_excel : UploadedFile -> result DataFrame)
  (describe : DataFrame -> result DataFrame)
  (uploaded_file : option UploadedFile) (ui : session) :
  match main Figure px1 show1 read_csv read_excel describe uploaded_file ui,
        main Figure px2 show2 read_csv read_excel describe uploaded_file ui
  with
  | Ok out1, Ok out2 =>
      removelast out1 = removelast out2 /\
      List.length out1 = List.length out2
  | Raise e1, Raise e2 => e1 = e2
  | _, _ => False
  end.
Proof.
  unfold main. destruct uploaded_file as [file|]; [|split; reflexivity].
  destruct (load_data read_csv read_excel file) as [[[df|] msgs]|e];
    simpl; [| split; reflexivity | reflexivity].
  destruct (tab1 Figure describe df) as [t1|e]; simpl; [|reflexivity].
  destruct (tab2 df (on_cleaning ui)) as [[df_clean t2]|e]; simpl;
    [|reflexivity].
  destruct (tab3 df_clean (column_choice ui) (percentile_choice ui))
    as [t3|e]; simpl; [|reflexivity].
  unfold tab4.
  destruct (plot_single Figure px1 show1 df_clean
              (st.selectbox chart_options 0 (chart_choice (on_charting ui)))
              (st.selectbox (columns df_clean) 0 (x_choice (on_charting ui)))
              (st.selectbox (columns df_clean)
                 (if Nat.ltb 1 (List.length (columns df_clean)) then 1 else 0)
                 (y_choice (on_charting ui)))
              (color_of (st.selectbox ("None" :: columns df_clean) 0
                           (color_choice (on_charting ui)))))
    as [r1 ->].
  destruct (plot_single Figure px2 show2 df_clean
              (st.selectbox chart_options 0 (chart_choice (on_charting ui)))
              (st.selectbox (columns df_clean) 0 (x_choice (on_charting ui)))
              (st.selectbox (columns df_clean)
                 (if Nat.ltb 1 (List.length (columns df_clean)) then 1 else 0)
                 (y_choice (on_charting ui)))
              (color_of (st.selectbox ("None" :: columns df_clean) 0
                           (color_choice (on_charting ui)))))
    as [r2 ->].
  simpl bind. simpl map.
  rewrite !app_assoc, !removelast_app_single, !length_app. simpl.
  split; reflexivity.
Qed.

(* ------------------------------------------------------------------ *)
(** ** The overview tab *)

Lemma Series_head_values (n : nat) (s : Series) :
  values (Series_head n s) = firstn n (values s).
Proof.
  destruct s; simpl; now rewrite ?firstn_map.
Qed.

Lemma Series_head_all (n : nat) (s : Series) :
  (size s <= n)%nat -> Series_head n s = s.
Proof.
  unfold size. destruct s; simpl; rewrite ?length_map; intros H;
    now rewrite firstn_all2.
Qed.

(** X17.  The preview on the overview tab has the columns of the table
    and, in every column, the first cells, five at most, under the first
    index labels; a table of five rows or fewer is shown whole. *)
Theorem head_is_the_first_five_rows (df : DataFrame) :
  well_formed df ->
  columns (head df) = columns df /\
  shape0 (head df) = Nat.min 5 (shape0 df) /\
  well_formed (head df) /\
  index (head df) = firstn 5 (index df) /\
  Forall2 (fun c c' => fst c' = fst c /\
                       values (snd c') = firstn 5 (values (snd c)))
          (data df) (data (head df)) /\
  ((shape0 df <= 5)%nat -> head df = df).
Proof.
  intros Hwf. unfold head, columns, shape0. cbn [index data].
  split; [now rewrite map_map|]. split; [apply length_firstn|].
  split; [|split; [reflexivity|split]].
  - unfold well_formed, shape0, size in *. cbn [index data].
    rewrite Forall_map. eapply Forall_impl; [|exact Hwf].
    intros c Hc. cbn [snd]. rewrite Series_head_values, !length_firstn.
    now rewrite Hc.
  - clear Hwf. induction (data df) as [|c cs IH]; cbn [map];
      constructor; [|exact IH].
    cbn [fst snd]. split; [reflexivity | apply Series_head_values].
  - intros Hn. destruct df as [idx cs]. cbn [index data] in *. f_equal.
    + now apply firstn_all2.
    + unfold well_formed, shape0 in Hwf. cbn [index data] in Hwf.
      induction Hwf as [|[n s] cs Hc Hwf IH]; cbn [map]; [reflexivity|].
      rewrite IH. cbn [fst snd] in *.
      rewrite Series_head_all by lia. reflexivity.
Qed.

Lemma head_is_the_first_five_rows_witness :
  columns (head readings) = columns readings /\
  shape0 (head readings) = Nat.min 5 (shape0 readings) /\
  well_formed (head readings) /\
  index (head readings) = firstn 5 (index readings) /\
  Forall2 (fun c c' => fst c' = fst c /\
                       values (snd c') = firstn 5 (values (snd c)))
          (data readings) (data (head readings)) /\
  ((shape0 readings <= 5)%nat -> head readings = readings).
Proof.
  apply (head_is_the_first_five_rows readings).
  unfold well_formed. simpl. repeat constructor.
Defined.

(* ------------------------------------------------------------------ *)
(** ** An untouched cleaning tab *)

(** X19.  With the drop list empty and the two choice boxes at their first
    option, the cleaning tab hands the uploaded table on as it is and
    shows only that table, whatever the hidden range and value controls
    hold. *)
Theorem untouched_cleaning_tab (df : DataFrame)
  (rc : option (float * float)) (vc : option (list nat)) :
  tab2 df (mkCleaning None None None rc vc) = Ok (df, [dataframe df]) /\
  tab2 df (mkCleaning (Some []) (Some 0%nat) (Some 0%nat) rc vc) =
    Ok (df, [dataframe df]).
Proof.
  split; reflexivity.
Qed.
